(** * Gathering system information from a backend

    A shallow embedding of the tutorial notebook
    [docs/tutorials/advanced/terra/pulse/gathering_system_information.ipynb].

    The notebook is a sequence of code cells run in one interactive session.
    Every cell is embedded as a computation over the session (the global
    namespace, the registered line magics, what was printed or displayed, and
    a log of the calls made into the library), which either returns or raises.
    The library the notebook demonstrates is not part of the repository: its
    objects are records of the attributes and methods the notebook uses, and
    the theorems quantify over them. *)

From Stdlib Require Import ZArith Floats.
From stdpp Require Import gmap strings pretty list.

Local Open Scope Z_scope.
Set Warnings "-register-all,-inexact-float".

(** ** The library *)

Module qiskit.

(** An exception raised inside the library. *)
Definition Exception : Type := string.

(** Modelled from the spec: the library is external and only called by the
    notebook. Its objects are values, records of the attributes and methods
    the notebook uses; a method is an accessor, a function of its arguments
    that reads its object and raises or returns. *)
Definition Result (A : Type) : Type := (Exception + A)%type.

Inductive Channel : Type :=
| DriveChannel (index : Z)
| MeasureChannel (index : Z)
| AcquireChannel (index : Z).

Definition Figure : Type := string.
Definition Html : Type := string.

(** Modelled from the spec: a pulse schedule is an opaque timed program of
    the library; the notebook reads its [duration] in prose and calls its
    [draw] method. *)
Record Schedule : Type := {
  duration : Z;
  draw : Result Figure
}.

(** The second argument of [get] and [has]: the notebook passes one qubit
    index ([has('x', 3)]) or a list of them. *)
Inductive Qubits : Type :=
| qubit (q : Z)
| qubits (qs : list Z).

(** Modelled from the spec: the configuration object, with the attributes
    and channel accessors the notebook reads. *)
Record BackendConfiguration : Type := {
  backend_name : string;
  backend_version : string;
  n_qubits : Z;
  open_pulse : bool;
  basis_gates : list string;
  dt : float;
  meas_levels : list Z;
  dtm : float;
  meas_map : list (list Z);
  drive : Z -> Result Channel;
  measure : Z -> Result Channel;
  acquire : Z -> Result Channel
}.

(** Modelled from the spec: the per-qubit calibration queries of the
    properties object. *)
Record BackendProperties : Type := {
  t1 : Z -> Result float;
  t2 : Z -> Result float;
  gate_error : string -> Z -> Result float;
  gate_length : string -> Z -> Result float;
  frequency : Z -> Result float
}.

(** Modelled from the spec: the instruction-to-schedule mapping as the
    notebook calls it: [get] with optional keyword parameters, [has], and
    the text [print] writes for it. *)
Record InstructionScheduleMap : Type := {
  get : string -> Qubits -> list (string * float) -> Result Schedule;
  has : string -> Qubits -> Result bool;
  str : Result string
}.

(** Modelled from the spec: the defaults object, with the two lists of
    estimated frequencies and the instruction schedule map. *)
Record PulseDefaults : Type := {
  qubit_freq_est : list float;
  meas_freq_est : list float;
  instruction_schedule_map : InstructionScheduleMap
}.

(** Modelled from the spec: the backend object and its three accessors. *)
Record Backend : Type := {
  configuration : Result BackendConfiguration;
  properties : Result BackendProperties;
  defaults : Result PulseDefaults
}.

(** What [from qiskit.test.mock import FakeAlmaden] binds: the class, that
    is, what calling it does. *)
Record BackendClass : Type := {
  new : Result Backend
}.

(** What [import qiskit.tools.jupyter] registers: two line magics. *)
Record JupyterTools : Type := {
  qiskit_version_table : Result Html;
  qiskit_copyright : Result Html
}.

(** The installed library, as far as the notebook imports from it. *)
Record Library : Type := {
  test_mock_FakeAlmaden : Result BackendClass;
  tools_jupyter : Result JupyterTools
}.

End qiskit.

(** ** Values, errors and the session *)

(** The functions the notebook defines with [def]. *)
Inductive Function : Type :=
| fn_describe_qubit.

Inductive Value : Type :=
| VInt (i : Z)
| VFloat (x : float)
| VStr (s : string)
| VBool (b : bool)
| VList (items : list Value)
| VChannel (c : qiskit.Channel)
| VSchedule (s : qiskit.Schedule)
| VFigure (f : qiskit.Figure)
| VHtml (h : qiskit.Html)
| VClass (c : qiskit.BackendClass)
| VBackend (b : qiskit.Backend)
| VConfiguration (c : qiskit.BackendConfiguration)
| VProperties (p : qiskit.BackendProperties)
| VDefaults (d : qiskit.PulseDefaults)
| VInstMap (m : qiskit.InstructionScheduleMap)
| VFunction (f : Function)
| VModule (name : string).

(** What a cell can raise. [NameError], [IndexError], [TypeError] and
    [UsageError] come from the interpreter, [LibraryError] carries an
    exception raised inside the library. *)
Inductive Raised : Type :=
| NameError (name : string)
| IndexError
| TypeError (expected : string)
| UsageError (magic : string)
| LibraryError (e : qiskit.Exception).

Inductive Except (A : Type) : Type :=
| Raise (e : Raised)
| Return (a : A).
Arguments Raise {A} e.
Arguments Return {A} a.

(** The calls into the library, with their arguments. *)
Inductive Call : Type :=
| call_import (module : string)
| call_FakeAlmaden
| call_configuration
| call_properties
| call_defaults
| call_drive (q : Z)
| call_measure (q : Z)
| call_acquire (q : Z)
| call_t1 (q : Z)
| call_t2 (q : Z)
| call_gate_error (gate : string) (q : Z)
| call_gate_length (gate : string) (q : Z)
| call_frequency (q : Z)
| call_str
| call_get (name : string) (qs : qiskit.Qubits) (kwargs : list (string * float))
| call_has (name : string) (qs : qiskit.Qubits)
| call_draw
| call_magic (name : string).

(** What a cell shows: text written by [print], or the value of the last
    expression of the cell. A formatted string is kept as its template and
    the arguments given to [format]. *)
Inductive Output : Type :=
| Printed (template : string) (args : list Value)
| Out (v : Value).

(** The session. [names] holds the global names bound by the code of the
    cells; the names the interpreter keeps on its own for past inputs and
    results ([_], [__], [_N], [_iN], ...) are not among them. *)
Record Session : Type := {
  names : gmap string Value;
  magics : option qiskit.JupyterTools;
  shown : list Output;
  calls : list (Call * option qiskit.Exception)
}.

Definition new_session : Session :=
  {| names := ∅; magics := None; shown := []; calls := [] |}.

(** A piece of a cell: it runs in a session and raises or returns. The session
    is kept when it raises, as the interpreter keeps what was bound before. *)
Definition Cell (A : Type) : Type := Session -> Session * Except A.

Definition ret {A} (a : A) : Cell A := fun s => (s, Return a).

Definition raise {A} (e : Raised) : Cell A := fun s => (s, Raise e).

Definition bind {A B} (m : Cell A) (k : A -> Cell B) : Cell B :=
  fun s =>
    match m s with
    | (s1, Return a) => k a s1
    | (s1, Raise e) => (s1, Raise e)
    end.

Notation "x <- m ;; k" := (bind m (fun x => k))
  (at level 100, m at next level, right associativity).
Notation "m ;;; k" := (bind m (fun _ => k))
  (at level 100, right associativity).

(** Reading a global name. *)
Definition load (x : string) : Cell Value :=
  fun s =>
    match names s !! x with
    | Some v => (s, Return v)
    | None => (s, Raise (NameError x))
    end.

(** [x = v] at the top level of a cell. *)
Definition assign (x : string) (v : Value) : Cell unit :=
  fun s =>
    ({| names := <[x := v]> (names s); magics := magics s;
        shown := shown s; calls := calls s |},
     Return tt).

Definition show (o : Output) : Cell unit :=
  fun s =>
    ({| names := names s; magics := magics s;
        shown := shown s ++ [o]; calls := calls s |},
     Return tt).

(** [print(template.format(args))] *)
Definition print_format (template : string) (args : list Value) : Cell unit :=
  show (Printed template args).

(** The value of the last expression of a cell, as it is shown. That the
    interpreter also keeps it under [_] and [_N] is not part of [names]. *)
Definition display (v : Value) : Cell unit := show (Out v).

Definition outcome {A} (r : qiskit.Result A) : option qiskit.Exception :=
  match r with
  | inl e => Some e
  | inr _ => None
  end.

(** A call into the library: it is logged with its outcome, and what it raises
    is raised by the cell. *)
Definition sdk {A} (c : Call) (r : qiskit.Result A) : Cell A :=
  fun s =>
    ({| names := names s; magics := magics s;
        shown := shown s; calls := calls s ++ [(c, outcome r)] |},
     match r with
     | inl e => Raise (LibraryError e)
     | inr a => Return a
     end).

(** [l[i]], with negative indices counted from the end. *)
Definition getitem {A} (l : list A) (i : Z) : Cell A :=
  let n := Z.of_nat (length l) in
  let j := if i <? 0 then i + n else i in
  if (j <? 0) || (n <=? j) then raise IndexError
  else
    match l !! Z.to_nat j with
    | Some x => ret x
    | None => raise IndexError
    end.

(** Attribute and method access needs an object of the right class. *)
Definition as_class (v : Value) : Cell qiskit.BackendClass :=
  match v with VClass c => ret c | _ => raise (TypeError "FakeAlmaden") end.

Definition as_backend (v : Value) : Cell qiskit.Backend :=
  match v with VBackend b => ret b | _ => raise (TypeError "backend") end.

Definition as_configuration (v : Value) : Cell qiskit.BackendConfiguration :=
  match v with VConfiguration c => ret c | _ => raise (TypeError "configuration") end.

Definition as_properties (v : Value) : Cell qiskit.BackendProperties :=
  match v with VProperties p => ret p | _ => raise (TypeError "properties") end.

Definition as_defaults (v : Value) : Cell qiskit.PulseDefaults :=
  match v with VDefaults d => ret d | _ => raise (TypeError "defaults") end.

Definition as_inst_map (v : Value) : Cell qiskit.InstructionScheduleMap :=
  match v with VInstMap m => ret m | _ => raise (TypeError "instruction_schedule_map") end.

Definition as_schedule (v : Value) : Cell qiskit.Schedule :=
  match v with VSchedule sc => ret sc | _ => raise (TypeError "schedule") end.

Definition as_float (v : Value) : Cell float :=
  match v with VFloat x => ret x | _ => raise (TypeError "float") end.

Definition as_function (v : Value) : Cell Function :=
  match v with VFunction f => ret f | _ => raise (TypeError "function") end.

(** [print(v)] writes [str(v)], which is what ["{}".format(v)] gives. *)
Definition print (v : Value) : Cell unit := print_format "{}" [v].

(** A line magic [%name]: it must have been registered by an import. *)
Definition magic (name : string)
    (f : qiskit.JupyterTools -> qiskit.Result qiskit.Html) : Cell unit :=
  fun s =>
    match magics s with
    | None => (s, Raise (UsageError name))
    | Some tools => (h <- sdk (call_magic name) (f tools) ;; display (VHtml h)) s
    end.

Definition register (tools : qiskit.JupyterTools) : Cell unit :=
  fun s =>
    ({| names := names s; magics := Some tools;
        shown := shown s; calls := calls s |},
     Return tt).

(** The builtin [range(stop)]: it yields 0, 1, ... while below [stop]. *)
Fixpoint range_from (fuel : nat) (i stop : Z) : list Z :=
  match fuel with
  | O => []
  | S fuel' => if i <? stop then i :: range_from fuel' (i + 1) stop else []
  end.

Definition range (stop : Z) : list Z := range_from (Z.to_nat stop) 0 stop.

(** [[f(q) for q in xs]]: the list is built by appending, in order. *)
Definition comprehension {A B} (f : A -> B) (xs : list A) : list B :=
  fold_left (fun acc q => acc ++ [f q]) xs [].

Arguments range : simpl never.
Arguments comprehension : simpl never.
Arguments getitem : simpl never.

(** ** The cells, in the order of the notebook *)

Definition nl : string := String (Ascii.ascii_of_nat 10) EmptyString.

(** [config.attribute] *)
Definition config_attr {A} (attribute : qiskit.BackendConfiguration -> A) : Cell A :=
  v <- load "config" ;;
  c <- as_configuration v ;;
  ret (attribute c).

(** [from qiskit.test.mock import FakeAlmaden; backend = FakeAlmaden()] *)
Definition cell_backend (lib : qiskit.Library) : Cell unit :=
  cls <- sdk (call_import "qiskit.test.mock") (qiskit.test_mock_FakeAlmaden lib) ;;
  assign "FakeAlmaden" (VClass cls) ;;;
  f <- load "FakeAlmaden" ;;
  cls <- as_class f ;;
  b <- sdk call_FakeAlmaden (qiskit.new cls) ;;
  assign "backend" (VBackend b).

Definition summary_template : string :=
  "This backend is called {0}, and is on version {1}. It has {2} qubit{3}. It "
  +:+ "{4} OpenPulse programs. The basis gates supported on this device are {5}."
  +:+ EmptyString.

(** [backend.configuration()] *)
Definition backend_configuration : Cell qiskit.BackendConfiguration :=
  v <- load "backend" ;;
  b <- as_backend v ;;
  sdk call_configuration (qiskit.configuration b).

(** [config = backend.configuration()] and the printed summary. *)
Definition cell_configuration : Cell unit :=
  c <- backend_configuration ;;
  assign "config" (VConfiguration c) ;;;
  a0 <- config_attr qiskit.backend_name ;;
  a1 <- config_attr qiskit.backend_version ;;
  a2 <- config_attr qiskit.n_qubits ;;
  n <- config_attr qiskit.n_qubits ;;
  let a3 := if n =? 1 then EmptyString else "s" in
  o <- config_attr qiskit.open_pulse ;;
  let a4 := if o : bool then "supports" else "does not support" in
  a5 <- config_attr qiskit.basis_gates ;;
  print_format summary_template
    [VStr a0; VStr a1; VInt a2; VStr a3; VStr a4; VList (map VStr a5)].

(** [config.dt] *)
Definition cell_dt : Cell unit :=
  x <- config_attr qiskit.dt ;;
  display (VFloat x).

(** [config.meas_levels] *)
Definition cell_meas_levels : Cell unit :=
  x <- config_attr qiskit.meas_levels ;;
  display (VList (map VInt x)).

(** [config.dtm] *)
Definition cell_dtm : Cell unit :=
  x <- config_attr qiskit.dtm ;;
  display (VFloat x).

(** [config.meas_map] *)
Definition cell_meas_map : Cell unit :=
  x <- config_attr qiskit.meas_map ;;
  display (VList (map (fun group => VList (map VInt group)) x)).

(** [config.drive(q)], [config.measure(q)] and [config.acquire(q)] *)
Definition config_drive (q : Z) : Cell qiskit.Channel :=
  method <- config_attr qiskit.drive ;;
  sdk (call_drive q) (method q).

Definition config_measure (q : Z) : Cell qiskit.Channel :=
  method <- config_attr qiskit.measure ;;
  sdk (call_measure q) (method q).

Definition config_acquire (q : Z) : Cell qiskit.Channel :=
  method <- config_attr qiskit.acquire ;;
  sdk (call_acquire q) (method q).

(** [config.drive(0)] *)
Definition cell_drive : Cell unit :=
  ch <- config_drive 0 ;;
  display (VChannel ch).

(** [config.measure(0)] *)
Definition cell_measure : Cell unit :=
  ch <- config_measure 0 ;;
  display (VChannel ch).

(** [config.acquire(0)] *)
Definition cell_acquire : Cell unit :=
  ch <- config_acquire 0 ;;
  display (VChannel ch).

(** [backend.properties()] *)
Definition backend_properties : Cell qiskit.BackendProperties :=
  v <- load "backend" ;;
  b <- as_backend v ;;
  sdk call_properties (qiskit.properties b).

(** [props = backend.properties()] *)
Definition cell_properties : Cell unit :=
  p <- backend_properties ;;
  assign "props" (VProperties p).

Definition describe_template : string :=
  "Qubit {0} has a " +:+ nl
  +:+ "  - T1 time of {1} microseconds" +:+ nl
  +:+ "  - T2 time of {2} microseconds" +:+ nl
  +:+ "  - U2 gate error of {3}" +:+ nl
  +:+ "  - U2 gate duration of {4} nanoseconds" +:+ nl
  +:+ "  - resonant frequency of {5} GHz".

(** [def describe_qubit(qubit, properties)]: the arguments of [format] are
    evaluated from left to right, then the text is printed. *)
Definition describe_qubit (qubit : Z) (properties : qiskit.BackendProperties) : Cell unit :=
  let us := 1e6%float in
  let ns := 1e9%float in
  let GHz := 1e-9%float in
  a1 <- sdk (call_t1 qubit) (qiskit.t1 properties qubit) ;;
  let a1 := (a1 * us)%float in
  a2 <- sdk (call_t2 qubit) (qiskit.t2 properties qubit) ;;
  let a2 := (a2 * us)%float in
  a3 <- sdk (call_gate_error "u2" qubit) (qiskit.gate_error properties "u2" qubit) ;;
  a4 <- sdk (call_gate_length "u2" qubit) (qiskit.gate_length properties "u2" qubit) ;;
  let a4 := (a4 * ns)%float in
  a5 <- sdk (call_frequency qubit) (qiskit.frequency properties qubit) ;;
  let a5 := (a5 * GHz)%float in
  print_format describe_template
    [VInt qubit; VFloat a1; VFloat a2; VFloat a3; VFloat a4; VFloat a5].

(** Calling a function of the notebook with a qubit index and an object. *)
Definition apply_function (f : Function) (qubit : Z) (arg : Value) : Cell unit :=
  match f with
  | fn_describe_qubit =>
      properties <- as_properties arg ;;
      describe_qubit qubit properties
  end.

(** The [def] of [describe_qubit], then [describe_qubit(0, props)]. *)
Definition cell_describe_qubit : Cell unit :=
  assign "describe_qubit" (VFunction fn_describe_qubit) ;;;
  f <- load "describe_qubit" ;;
  f <- as_function f ;;
  p <- load "props" ;;
  apply_function f 0 p.

(** [backend.defaults()] *)
Definition backend_defaults : Cell qiskit.PulseDefaults :=
  v <- load "backend" ;;
  b <- as_backend v ;;
  sdk call_defaults (qiskit.defaults b).

(** [defaults = backend.defaults()] *)
Definition cell_defaults : Cell unit :=
  d <- backend_defaults ;;
  assign "defaults" (VDefaults d).

(** [defaults.attribute] *)
Definition defaults_attr {A} (attribute : qiskit.PulseDefaults -> A) : Cell A :=
  v <- load "defaults" ;;
  d <- as_defaults v ;;
  ret (attribute d).

(** [name1 * name2] on two floats of the namespace. *)
Definition times (x y : string) : Cell float :=
  a <- load x ;;
  a <- as_float a ;;
  b <- load y ;;
  b <- as_float b ;;
  ret (a * b)%float.

(** The drive and measurement frequencies of qubit 0. *)
Definition cell_frequencies : Cell unit :=
  est <- defaults_attr qiskit.qubit_freq_est ;;
  x <- getitem est 0 ;;
  assign "q0_freq" (VFloat x) ;;;
  est <- defaults_attr qiskit.meas_freq_est ;;
  y <- getitem est 0 ;;
  assign "q0_meas_freq" (VFloat y) ;;;
  assign "GHz" (VFloat 1e-9) ;;;
  f <- times "q0_freq" "GHz" ;;
  print_format "DriveChannel(0) defaults to a modulation frequency of {} GHz." [VFloat f] ;;;
  f <- times "q0_meas_freq" "GHz" ;;
  print_format "MeasureChannel(0) defaults to a modulation frequency of {} GHz." [VFloat f].

(** [inst_map.method] *)
Definition inst_map_attr {A} (method : qiskit.InstructionScheduleMap -> A) : Cell A :=
  v <- load "inst_map" ;;
  m <- as_inst_map v ;;
  ret (method m).

(** [inst_map = defaults.instruction_schedule_map; print(inst_map)] *)
Definition cell_inst_map : Cell unit :=
  m <- defaults_attr qiskit.instruction_schedule_map ;;
  assign "inst_map" (VInstMap m) ;;;
  text <- inst_map_attr qiskit.str ;;
  text <- sdk call_str text ;;
  print (VStr text).

(** [inst_map.get(name, qs, **kwargs)]: the method is looked up, then the
    argument is evaluated, then the call is made. *)
Definition inst_map_get (name : string) (qs : Cell qiskit.Qubits)
    (kwargs : list (string * float)) : Cell qiskit.Schedule :=
  method <- inst_map_attr qiskit.get ;;
  qs <- qs ;;
  sdk (call_get name qs kwargs) (method name qs kwargs).

(** [inst_map.has(name, qs)] *)
Definition inst_map_has (name : string) (qs : Cell qiskit.Qubits) : Cell bool :=
  method <- inst_map_attr qiskit.has ;;
  qs <- qs ;;
  sdk (call_has name qs) (method name qs).

(** [[q for q in range(config.n_qubits)]] *)
Definition all_qubits : Cell qiskit.Qubits :=
  n <- config_attr qiskit.n_qubits ;;
  ret (qiskit.qubits (comprehension (fun q => q) (range n))).

(** The calibrated measurement schedule of all the qubits, and its drawing. *)
Definition cell_measure_schedule : Cell unit :=
  sched <- inst_map_get "measure" all_qubits [] ;;
  assign "measure_schedule" (VSchedule sched) ;;;
  v <- load "measure_schedule" ;;
  sched <- as_schedule v ;;
  fig <- sdk call_draw (qiskit.draw sched) ;;
  display (VFigure fig).

(** [inst_map.has('x', 3)] *)
Definition cell_has : Cell unit :=
  b <- inst_map_has "x" (ret (qiskit.qubit 3)) ;;
  display (VBool b).

(** [inst_map.get('u1', 0, P0=3.1415)] *)
Definition cell_get_u1 : Cell unit :=
  sched <- inst_map_get "u1" (ret (qiskit.qubit 0)) [("P0", 3.1415%float)] ;;
  display (VSchedule sched).

(** [import qiskit.tools.jupyter] and the two line magics. *)
Definition cell_version (lib : qiskit.Library) : Cell unit :=
  tools <- sdk (call_import "qiskit.tools.jupyter") (qiskit.tools_jupyter lib) ;;
  assign "qiskit" (VModule "qiskit") ;;;
  register tools ;;;
  magic "qiskit_version_table" qiskit.qiskit_version_table ;;;
  magic "qiskit_copyright" qiskit.qiskit_copyright.

Definition notebook (lib : qiskit.Library) : list (Cell unit) :=
  [ cell_backend lib; cell_configuration; cell_dt; cell_meas_levels; cell_dtm;
    cell_meas_map; cell_drive; cell_measure; cell_acquire; cell_properties;
    cell_describe_qubit; cell_defaults; cell_frequencies; cell_inst_map;
    cell_measure_schedule; cell_has; cell_get_u1; cell_version lib ].

(** Running cells one after the other; the run stops at the first cell that
    raises. *)
Fixpoint run_cells (cells : list (Cell unit)) : Cell unit :=
  match cells with
  | [] => ret tt
  | c :: rest => c ;;; run_cells rest
  end.

Definition run_all (lib : qiskit.Library) : Session * Except unit :=
  run_cells (notebook lib) new_session.

(** ** The text that is written

    [print] and [format] turn the template and the arguments into text. The
    text of a float is left to the interpreter ([repr_float]); the text of an
    object of the library is defined by the library and is not given here. *)

Section text.

Variable repr_float : float -> string.

Fixpoint join (sep : string) (parts : list string) : string :=
  match parts with
  | [] => EmptyString
  | [p] => p
  | p :: rest => p +:+ sep +:+ join sep rest
  end.

(** [repr(v)], for strings without quotes or escapes. *)
Fixpoint repr (v : Value) : option string :=
  match v with
  | VInt i => Some (pretty i)
  | VFloat x => Some (repr_float x)
  | VStr s => Some ("'" +:+ s +:+ "'")
  | VBool b => Some (if b then "True" else "False")
  | VList items =>
      let fix all (l : list Value) : option (list string) :=
        match l with
        | [] => Some []
        | x :: l' =>
            match repr x, all l' with
            | Some p, Some ps => Some (p :: ps)
            | _, _ => None
            end
        end in
      match all items with
      | Some parts => Some ("[" +:+ join ", " parts +:+ "]")
      | None => None
      end
  | _ => None
  end.

(** [str(v)] *)
Definition str (v : Value) : option string :=
  match v with
  | VStr s => Some s
  | _ => repr v
  end.

(** The braces that open and close a replacement field. *)
Definition is_open (c : Ascii.ascii) : bool := (Ascii.nat_of_ascii c =? 123)%nat.
Definition is_close (c : Ascii.ascii) : bool := (Ascii.nat_of_ascii c =? 125)%nat.

Definition digit (c : Ascii.ascii) : option nat :=
  let n := Ascii.nat_of_ascii c in
  if (48 <=? n)%nat && (n <=? 57)%nat then Some (n - 48)%nat else None.

(** [template.format] on its arguments, for replacement fields of the form [{}] and
    [{n}]: [field] holds the index read so far inside a field, [auto] counts
    the fields without an index. *)
Fixpoint format_from (template : string) (field : option (option nat))
    (auto : nat) (args : list string) : option string :=
  match template with
  | EmptyString =>
      match field with
      | None => Some EmptyString
      | Some _ => None
      end
  | String c rest =>
      match field with
      | None =>
          if is_open c then format_from rest (Some None) auto args
          else
            match format_from rest None auto args with
            | Some text => Some (String c text)
            | None => None
            end
      | Some index =>
          if is_close c then
            let i := default auto index in
            let auto' := match index with None => S auto | Some _ => auto end in
            match args !! i, format_from rest None auto' args with
            | Some a, Some text => Some (a +:+ text)
            | _, _ => None
            end
          else
            match digit c with
            | Some k =>
                format_from rest (Some (Some (10 * default 0 index + k)%nat)) auto args
            | None => None
            end
      end
  end.

Definition format (template : string) (args : list string) : option string :=
  format_from template None 0 args.

(** The text of one output. *)
Definition render (o : Output) : option string :=
  match o with
  | Printed template args =>
      match mapM str args with
      | Some texts => format template texts
      | None => None
      end
  | Out v => repr v
  end.

End text.

(** What a computation adds to the session: the calls it makes into the
    library, and what it shows. *)
Definition logged {A} (m : Cell A) (s : Session) : list (Call * option qiskit.Exception) :=
  drop (length (calls s)) (calls (m s).1).

Definition presented {A} (m : Cell A) (s : Session) : list Output :=
  drop (length (shown s)) (shown (m s).1).

(** ** A sample library

    Constant data in the shape of the mocked 20-qubit backend, used to run the
    cells on concrete inputs. *)

Module sample.

Definition in_range (q : Z) : bool := (0 <=? q) && (q <? 20).

Definition channel (make : Z -> qiskit.Channel) (q : Z) : qiskit.Result qiskit.Channel :=
  if in_range q then inr (make q) else inl "Invalid index for 20-qubit system.".

Definition config : qiskit.BackendConfiguration :=
  {| qiskit.backend_name := "fake_almaden";
     qiskit.backend_version := "1.4.6";
     qiskit.n_qubits := 20;
     qiskit.open_pulse := true;
     qiskit.basis_gates := ["u1"; "u2"; "u3"; "cx"; "id"];
     qiskit.dt := 0.25e-9%float;
     qiskit.meas_levels := [1; 2];
     qiskit.dtm := 0.25e-9%float;
     qiskit.meas_map := [range 20];
     qiskit.drive := channel qiskit.DriveChannel;
     qiskit.measure := channel qiskit.MeasureChannel;
     qiskit.acquire := channel qiskit.AcquireChannel |}.

Definition per_qubit (x : float) (q : Z) : qiskit.Result float :=
  if in_range q then inr x else inl "Could not find the desired property.".

Definition props : qiskit.BackendProperties :=
  {| qiskit.t1 := per_qubit 0.000125%float;
     qiskit.t2 := per_qubit 0.0000625%float;
     qiskit.gate_error := fun _ => per_qubit 0.0009765625%float;
     qiskit.gate_length := fun _ => per_qubit 0.00000003125%float;
     qiskit.frequency := per_qubit 4857000000%float |}.

Definition schedule (d : Z) : qiskit.Schedule :=
  {| qiskit.duration := d; qiskit.draw := inr "figure" |}.

Definition inst_map : qiskit.InstructionScheduleMap :=
  {| qiskit.get := fun name qs kwargs =>
       if String.eqb name "measure" then inr (schedule 16000)
       else if String.eqb name "u1" then inr (schedule 0)
       else inl "Operation is not defined for the qubits.";
     qiskit.has := fun name qs => inr (String.eqb name "x");
     qiskit.str := inr "<InstructionScheduleMap>" |}.

Definition defaults : qiskit.PulseDefaults :=
  {| qiskit.qubit_freq_est := [4857000000%float; 4971000000%float];
     qiskit.meas_freq_est := [7000000000%float; 7100000000%float];
     qiskit.instruction_schedule_map := inst_map |}.

Definition backend : qiskit.Backend :=
  {| qiskit.configuration := inr config;
     qiskit.properties := inr props;
     qiskit.defaults := inr defaults |}.

(** A backend without pulse access: asking for its defaults raises. *)
Definition circuit_backend : qiskit.Backend :=
  {| qiskit.configuration := inr config;
     qiskit.properties := inr props;
     qiskit.defaults := inl "This backend has no pulse defaults." |}.

(** A one-qubit backend without pulse access. *)
Definition one_qubit_config : qiskit.BackendConfiguration :=
  {| qiskit.backend_name := "fake_one_qubit";
     qiskit.backend_version := "1.0.0";
     qiskit.n_qubits := 1;
     qiskit.open_pulse := false;
     qiskit.basis_gates := ["u1"; "u2"; "u3"; "id"];
     qiskit.dt := 0.25e-9%float;
     qiskit.meas_levels := [2];
     qiskit.dtm := 0.25e-9%float;
     qiskit.meas_map := [[0]];
     qiskit.drive := channel qiskit.DriveChannel;
     qiskit.measure := channel qiskit.MeasureChannel;
     qiskit.acquire := channel qiskit.AcquireChannel |}.

Definition one_qubit_backend : qiskit.Backend :=
  {| qiskit.configuration := inr one_qubit_config;
     qiskit.properties := inr props;
     qiskit.defaults := inl "This backend has no pulse defaults." |}.

(** A new session in which [backend] is bound to [b]. *)
Definition with_backend (b : qiskit.Backend) : Session :=
  (assign "backend" (VBackend b) new_session).1.

Definition lib : qiskit.Library :=
  {| qiskit.test_mock_FakeAlmaden := inr {| qiskit.new := inr backend |};
     qiskit.tools_jupyter :=
       inr {| qiskit.qiskit_version_table := inr "<h3>Version Information</h3>";
              qiskit.qiskit_copyright := inr "<h3>This code is a part of Qiskit</h3>" |} |}.

(** The session after the first [n] cells have run on the sample library. *)
Definition after (n : nat) : Session :=
  (run_cells (take n (notebook lib)) new_session).1.

(** The session after the whole notebook has run on the sample library. *)
Definition session : Session := (run_cells (notebook lib) new_session).1.

End sample.

(** [propagates m]: running [m] only appends to the log of calls; when [m]
    returns, every call it made returned; when [m] raises, a call that raised
    [e] makes [m] raise exactly [e]. *)
Definition propagates {A} (m : Cell A) : Prop :=
  forall s, exists new,
    calls (m s).1 = calls s ++ new /\
    match (m s).2 with
    | Return _ => Forall (fun entry => entry.2 = None) new
    | Raise e' => forall call e, In (call, Some e) new -> e' = LibraryError e
    end.


(** ** Sequential execution *)

(** One step of the session: the cell at position [i] runs and returns, and
    the session moves on to the next cell. *)
Inductive step (lib : qiskit.Library) : nat * Session -> nat * Session -> Prop :=
| step_cell i c s :
    notebook lib !! i = Some c ->
    (c s).2 = Return tt ->
    step lib (i, s) (S i, (c s).1).

(** The sessions met when the notebook is run from the top in a new session. *)
Definition reachable (lib : qiskit.Library) (st : nat * Session) : Prop :=
  rtc (step lib) (0%nat, new_session) st.

(** The global names each cell binds, cell by cell. *)
Definition binds : list (list string) :=
  [ ["FakeAlmaden"; "backend"]; ["config"]; []; []; []; []; []; []; [];
    ["props"]; ["describe_qubit"]; ["defaults"];
    ["q0_freq"; "q0_meas_freq"; "GHz"]; ["inst_map"]; ["measure_schedule"];
    []; []; ["qiskit"] ].

(** The names bound once the names [xs] are bound on top of [D]. *)
Definition bind_all (D : gset string) (xs : list string) : gset string :=
  foldl (fun D x => {[x]} ∪ D) D xs.

(** The names bound by the cells strictly before cell [i]. *)
Definition known (i : nat) : gset string :=
  foldl bind_all ∅ (take i binds).

(** [triple D m D']: from a session whose bound names are exactly [D], the
    computation [m] raises no [NameError], and when it returns the bound names
    are exactly [D']. *)
Definition triple {A} (D : gset string) (m : Cell A) (D' : gset string) : Prop :=
  forall s, dom (names s) = D ->
    match (m s).2 with
    | Return _ => dom (names (m s).1) = D'
    | Raise e => forall x, e <> NameError x
    end.

(** ** The calls of each cell *)

(** The list [[0, 1, ..., n - 1]]. *)
Definition zero_to (n : Z) : list Z := map Z.of_nat (seq 0 (Z.to_nat n)).

(** The qubit count of the configuration bound to [config], if any. *)
Definition session_n_qubits (s : Session) : Z :=
  match names s !! "config" with
  | Some (VConfiguration c) => qiskit.n_qubits c
  | _ => 0
  end.

(** The calls each cell makes when it returns, in order; only the argument of
    the measurement lookup depends on the session, through the qubit count. *)
Definition script (n : Z) : list (list Call) :=
  [ [call_import "qiskit.test.mock"; call_FakeAlmaden];
    [call_configuration]; []; []; []; [];
    [call_drive 0]; [call_measure 0]; [call_acquire 0];
    [call_properties];
    [call_t1 0; call_t2 0; call_gate_error "u2" 0; call_gate_length "u2" 0;
     call_frequency 0];
    [call_defaults]; [];
    [call_str];
    [call_get "measure" (qiskit.qubits (zero_to n)) []; call_draw];
    [call_has "x" (qiskit.qubit 3)];
    [call_get "u1" (qiskit.qubit 0) [("P0", 3.1415%float)]];
    [call_import "qiskit.tools.jupyter"; call_magic "qiskit_version_table";
     call_magic "qiskit_copyright"] ].

(** [makes m cs]: when [m] returns, the calls it made are [cs], in order, and
    each of them returned. *)
Definition makes {A} (m : Cell A) (cs : list Call) : Prop :=
  forall s,
    match (m s).2 with
    | Return _ => calls (m s).1 = calls s ++ map (fun c => (c, None)) cs
    | Raise _ => True
    end.

(** The two pieces of text the configuration summary chooses itself: the
    plural suffix and the phrase about pulse programs (fields 3 and 4). *)
Definition summary_words (s : Session) : option (Value * Value) :=
  match presented cell_configuration s with
  | [Printed _ [_; _; _; suffix; phrase; _]] => Some (suffix, phrase)
  | _ => None
  end.

(** The five queries of [describe_qubit]. *)
Definition qubit_queries (qubit : Z) : list Call :=
  [call_t1 qubit; call_t2 qubit; call_gate_error "u2" qubit;
   call_gate_length "u2" qubit; call_frequency qubit].

(** ** Names a cell may change, and names a cell needs *)

(** [touches X m]: running [m] leaves every name outside [X] bound as it
    was, or unbound as it was. *)
Definition touches {A} (X : list string) (m : Cell A) : Prop :=
  forall s x, ~ In x X -> names (m s).1 !! x = names s !! x.

(** The first name each cell reads that it does not bind itself, cell by
    cell; the first and the last cell read none. *)
Definition needs : list (option string) :=
  [ None; Some "backend"; Some "config"; Some "config"; Some "config";
    Some "config"; Some "config"; Some "config"; Some "config";
    Some "backend"; Some "props"; Some "backend"; Some "defaults";
    Some "defaults"; Some "inst_map"; Some "inst_map"; Some "inst_map";
    None ].

(** ** The class of the object behind each name *)

Inductive Kind : Type :=
| KInt | KFloat | KStr | KBool | KList | KChannel | KSchedule | KFigure
| KHtml | KClass | KBackend | KConfiguration | KProperties | KDefaults
| KInstMap | KFunction | KModule.

Definition kind_of (v : Value) : Kind :=
  match v with
  | VInt _ => KInt
  | VFloat _ => KFloat
  | VStr _ => KStr
  | VBool _ => KBool
  | VList _ => KList
  | VChannel _ => KChannel
  | VSchedule _ => KSchedule
  | VFigure _ => KFigure
  | VHtml _ => KHtml
  | VClass _ => KClass
  | VBackend _ => KBackend
  | VConfiguration _ => KConfiguration
  | VProperties _ => KProperties
  | VDefaults _ => KDefaults
  | VInstMap _ => KInstMap
  | VFunction _ => KFunction
  | VModule _ => KModule
  end.

(** What each name of the notebook is bound to, when it is bound. *)
Definition kinds : list (string * Kind) :=
  [ ("FakeAlmaden", KClass); ("backend", KBackend); ("config", KConfiguration);
    ("props", KProperties); ("describe_qubit", KFunction);
    ("defaults", KDefaults); ("q0_freq", KFloat); ("q0_meas_freq", KFloat);
    ("GHz", KFloat); ("inst_map", KInstMap); ("measure_schedule", KSchedule);
    ("qiskit", KModule) ].

Fixpoint expected_in (table : list (string * Kind)) (x : string) : option Kind :=
  match table with
  | [] => None
  | (y, k) :: rest => if String.eqb x y then Some k else expected_in rest x
  end.

Definition expected (x : string) : option Kind := expected_in kinds x.

(** Every bound name of the notebook stands for an object of its class. *)
Definition well_kinded (s : Session) : Prop :=
  forall x v k, names s !! x = Some v -> expected x = Some k -> kind_of v = k.

(** [keeps m]: running [m] in a well-kinded session leaves it well-kinded. *)
Definition keeps {A} (m : Cell A) : Prop :=
  forall s, well_kinded s -> well_kinded (m s).1.

(** What a cell of the notebook raises when the notebook is run from the top:
    an exception of the library, or, in the frequency cell (cell 12),
    [IndexError]. *)
Definition allowed (i : nat) (e : Raised) : Prop :=
  (exists x, e = LibraryError x) \/ (i = 12%nat /\ e = IndexError).

(** The sample library with a backend that has no pulse defaults. *)
Definition circuit_lib : qiskit.Library :=
  {| qiskit.test_mock_FakeAlmaden :=
       inr {| qiskit.new := inr sample.circuit_backend |};
     qiskit.tools_jupyter := qiskit.tools_jupyter sample.lib |}.

(** ** The log of a run *)



(** * Properties of the notebook *)

(** ** Basic facts about the session operations *)

Lemma bind_run {A B} (m : Cell A) (k : A -> Cell B) s :
  bind m k s =
    match (m s).2 with
    | Return a => k a (m s).1
    | Raise e => ((m s).1, Raise e)
    end.
Proof. unfold bind. destruct (m s) as [s1 [e|a]]; reflexivity. Qed.

Lemma logged_app {A} (m : Cell A) s new :
  calls (m s).1 = calls s ++ new -> logged m s = new.
Proof. unfold logged. intros ->. apply drop_app_length. Qed.

Lemma presented_app {A} (m : Cell A) s new :
  shown (m s).1 = shown s ++ new -> presented m s = new.
Proof. unfold presented. intros ->. apply drop_app_length. Qed.

(** ** Exceptions of the library are neither caught nor changed *)

Lemma propagates_silent {A} (m : Cell A) :
  (forall s, calls (m s).1 = calls s) -> propagates m.
Proof.
  intros Hsame s. exists []. rewrite app_nil_r. split; [apply Hsame|].
  destruct (m s).2; [intros ? ? []|constructor].
Qed.

Lemma propagates_ret {A} (a : A) : propagates (ret a).
Proof. apply propagates_silent. reflexivity. Qed.

Lemma propagates_raise {A} e : propagates (@raise A e).
Proof. apply propagates_silent. reflexivity. Qed.

Lemma propagates_load x : propagates (load x).
Proof. apply propagates_silent. intros s. unfold load. destruct (names s !! x); reflexivity. Qed.

Lemma propagates_assign x v : propagates (assign x v).
Proof. apply propagates_silent. reflexivity. Qed.

Lemma propagates_show o : propagates (show o).
Proof. apply propagates_silent. reflexivity. Qed.

Lemma propagates_register tools : propagates (register tools).
Proof. apply propagates_silent. reflexivity. Qed.

Lemma propagates_getitem {A} (l : list A) i : propagates (getitem l i).
Proof.
  apply propagates_silent. intros s. unfold getitem.
  destruct (_ || _); [reflexivity|]. destruct (l !! _); reflexivity.
Qed.

Lemma propagates_sdk {A} c (r : qiskit.Result A) : propagates (sdk c r).
Proof.
  intros s. exists [(c, outcome r)]. split; [reflexivity|].
  destruct r as [e|a]; simpl.
  - intros call e0 [[= _ <-]|[]]. reflexivity.
  - repeat constructor.
Qed.

Lemma propagates_bind {A B} (m : Cell A) (k : A -> Cell B) :
  propagates m -> (forall a, propagates (k a)) -> propagates (bind m k).
Proof.
  intros Hm Hk s. rewrite bind_run.
  destruct (Hm s) as (new1 & Hcalls1 & Hres1).
  destruct (m s).2 as [e1|a].
  - exists new1. split; assumption.
  - destruct (Hk a (m s).1) as (new2 & Hcalls2 & Hres2).
    exists (new1 ++ new2). split.
    + rewrite Hcalls2, Hcalls1, app_assoc. reflexivity.
    + destruct (k a (m s).1).2 as [e2|b].
      * intros call e [Hin|Hin]%in_app_or; [|eauto].
        rewrite Forall_forall in Hres1.
        apply list_elem_of_In, Hres1 in Hin. discriminate.
      * apply Forall_app. split; assumption.
Qed.

Create HintDb propagation.

#[export] Hint Resolve propagates_ret propagates_raise propagates_load
  propagates_assign propagates_show propagates_register propagates_getitem
  propagates_sdk : propagation.

Ltac propagation :=
  repeat lazymatch goal with
    | |- propagates (bind _ _) => apply propagates_bind; [|intros]
    | |- propagates (match ?v with _ => _ end) => destruct v
    | |- propagates _ => solve [auto with propagation]
    end.

Lemma propagates_as_class v : propagates (as_class v).
Proof. unfold as_class. propagation. Qed.

Lemma propagates_as_backend v : propagates (as_backend v).
Proof. unfold as_backend. propagation. Qed.

Lemma propagates_as_configuration v : propagates (as_configuration v).
Proof. unfold as_configuration. propagation. Qed.

Lemma propagates_as_properties v : propagates (as_properties v).
Proof. unfold as_properties. propagation. Qed.

Lemma propagates_as_defaults v : propagates (as_defaults v).
Proof. unfold as_defaults. propagation. Qed.

Lemma propagates_as_inst_map v : propagates (as_inst_map v).
Proof. unfold as_inst_map. propagation. Qed.

Lemma propagates_as_schedule v : propagates (as_schedule v).
Proof. unfold as_schedule. propagation. Qed.

Lemma propagates_as_float v : propagates (as_float v).
Proof. unfold as_float. propagation. Qed.

Lemma propagates_as_function v : propagates (as_function v).
Proof. unfold as_function. propagation. Qed.

#[export] Hint Resolve propagates_as_class propagates_as_backend
  propagates_as_configuration propagates_as_properties propagates_as_defaults
  propagates_as_inst_map propagates_as_schedule propagates_as_float
  propagates_as_function : propagation.

Lemma propagates_magic name f : propagates (magic name f).
Proof.
  intros s. unfold magic. destruct (magics s) as [tools|].
  - assert (H : propagates (h <- sdk (call_magic name) (f tools) ;; display (VHtml h)))
      by (unfold display; propagation).
    apply H.
  - exists []. rewrite app_nil_r. split; [reflexivity|]. intros ? ? [].
Qed.

Lemma propagates_config_attr {A} (f : _ -> A) : propagates (config_attr f).
Proof. unfold config_attr. propagation. Qed.

Lemma propagates_defaults_attr {A} (f : _ -> A) : propagates (defaults_attr f).
Proof. unfold defaults_attr. propagation. Qed.

Lemma propagates_inst_map_attr {A} (f : _ -> A) : propagates (inst_map_attr f).
Proof. unfold inst_map_attr. propagation. Qed.

Lemma propagates_times x y : propagates (times x y).
Proof. unfold times. propagation. Qed.

Lemma propagates_print_format t args : propagates (print_format t args).
Proof. unfold print_format. propagation. Qed.

Lemma propagates_display v : propagates (display v).
Proof. unfold display. propagation. Qed.

#[export] Hint Resolve propagates_magic propagates_config_attr
  propagates_defaults_attr propagates_inst_map_attr propagates_times
  propagates_print_format propagates_display : propagation.



(** ** Names are bound before they are used *)

Lemma triple_same {A} (m : Cell A) D :
  (forall s, names (m s).1 = names s) ->
  (forall s x, (m s).2 <> Raise (NameError x)) ->
  triple D m D.
Proof.
  intros Hnames Herr s HD. specialize (Herr s).
  destruct (m s).2 eqn:E.
  - intros x ->. exact (Herr x eq_refl).
  - rewrite Hnames. exact HD.
Qed.

Lemma triple_ret {A} (a : A) D : triple D (ret a) D.
Proof. apply triple_same; [reflexivity|discriminate]. Qed.

Lemma triple_raise {A} e D D' :
  (forall x, e <> NameError x) -> triple D (@raise A e) D'.
Proof. intros He s _. exact He. Qed.

Lemma triple_load x D : x ∈ D -> triple D (load x) D.
Proof.
  intros Hx s HD. unfold load.
  destruct (names s !! x) eqn:E; simpl; [exact HD|].
  apply not_elem_of_dom in E. rewrite HD in E. contradiction.
Qed.

Lemma triple_assign x v D : triple D (assign x v) ({[x]} ∪ D).
Proof. intros s HD. simpl. rewrite dom_insert_L, HD. reflexivity. Qed.

Lemma triple_show o D : triple D (show o) D.
Proof. apply triple_same; [reflexivity|discriminate]. Qed.

Lemma triple_register tools D : triple D (register tools) D.
Proof. apply triple_same; [reflexivity|discriminate]. Qed.

Lemma triple_sdk {A} c (r : qiskit.Result A) D : triple D (sdk c r) D.
Proof. apply triple_same; [reflexivity|]. intros s x. destruct r; discriminate. Qed.

Lemma triple_getitem {A} (l : list A) i D : triple D (getitem l i) D.
Proof.
  apply triple_same; intros s; unfold getitem;
    destruct (_ || _); try destruct (l !! _); try reflexivity; discriminate.
Qed.

Lemma triple_bind {A B} (m : Cell A) (k : A -> Cell B) D D1 D2 :
  triple D m D1 -> (forall a, triple D1 (k a) D2) -> triple D (bind m k) D2.
Proof.
  intros Hm Hk s HD. rewrite bind_run. specialize (Hm s HD).
  destruct (m s).2 as [e|a]; [exact Hm|]. apply Hk, Hm.
Qed.

Lemma triple_post {A} (m : Cell A) D D1 D2 :
  triple D m D1 -> D1 = D2 -> triple D m D2.
Proof. intros H <-. exact H. Qed.

Lemma triple_magic name f D : triple D (magic name f) D.
Proof.
  apply triple_same; intros s; unfold magic; destruct (magics s); try discriminate;
    try reflexivity; destruct (f j); try reflexivity; discriminate.
Qed.

Lemma known_eq i : known i = foldl bind_all ∅ (take i binds).
Proof. reflexivity. Qed.

Ltac known_names := rewrite ?known_eq; cbn [take binds foldl bind_all].

Ltac in_names :=
  repeat first
    [ apply elem_of_union_l; apply elem_of_singleton_2; reflexivity
    | apply elem_of_union_r ].

Ltac triple_step :=
  lazymatch goal with
  | |- triple _ (bind _ _) _ => eapply triple_bind; [|intros]
  | |- triple _ (ret _) _ => apply triple_ret
  | |- triple _ (raise _) _ => apply triple_raise; discriminate
  | |- triple _ (assign _ _) _ => apply triple_assign
  | |- triple _ (show _) _ => apply triple_show
  | |- triple _ (register _) _ => apply triple_register
  | |- triple _ (sdk _ _) _ => apply triple_sdk
  | |- triple _ (getitem _ _) _ => apply triple_getitem
  | |- triple _ (magic _ _) _ => apply triple_magic
  | |- triple _ (load _) _ => apply triple_load; in_names
  | |- triple _ (match ?v with _ => _ end) _ => destruct v
  end.

Ltac triples := repeat triple_step.

Ltac unfold_cells :=
  unfold cell_backend, cell_configuration, cell_dt, cell_meas_levels,
    cell_dtm, cell_meas_map, cell_drive, cell_measure, cell_acquire,
    cell_properties, cell_describe_qubit, cell_defaults, cell_frequencies,
    cell_inst_map, cell_measure_schedule, cell_has, cell_get_u1, cell_version,
    backend_configuration, backend_properties, backend_defaults,
    config_drive, config_measure, config_acquire, inst_map_get, inst_map_has,
    all_qubits, apply_function, describe_qubit, times, print,
    config_attr, defaults_attr, inst_map_attr, print_format, display,
    as_class, as_backend, as_configuration, as_properties, as_defaults,
    as_inst_map, as_schedule, as_float, as_function.

(** Every cell finds the names it reads among those bound by the cells before
    it, and adds the names of its row of [binds]. *)
Lemma triple_notebook lib i c :
  notebook lib !! i = Some c -> triple (known i) c (known (S i)).
Proof.
  unfold notebook. intros H.
  do 18 (destruct i as [|i];
    [ injection H as <-; eapply triple_post;
      [ unfold_cells; known_names; triples
      | known_names; reflexivity ]
    | cbn [lookup list_lookup] in H ]).
  discriminate.
Qed.

(** ** Sequential execution of the cells *)

Lemma step_deterministic lib st st1 st2 :
  step lib st st1 -> step lib st st2 -> st1 = st2.
Proof.
  intros H1 H2. destruct H1 as [i c s Hc Hr].
  inversion H2 as [i' c' s' Hc' Hr']; subst.
  rewrite Hc in Hc'. injection Hc' as <-. reflexivity.
Qed.

Lemma reachable_names lib st :
  reachable lib st -> dom (names st.2) = known st.1.
Proof.
  unfold reachable. revert st.
  apply (rtc_ind_r (fun st => dom (names st.2) = known st.1)).
  - simpl. apply dom_empty_L.
  - intros st st' _ Hstep IH.
    destruct Hstep as [i c s Hc Hr]. simpl in *.
    pose proof (triple_notebook lib i c Hc s IH) as Ht.
    rewrite Hr in Ht. exact Ht.
Qed.

Lemma run_cells_reachable lib pre mid post s s' :
  notebook lib = pre ++ mid ++ post ->
  reachable lib (length pre, s) ->
  run_cells mid s = (s', Return tt) ->
  reachable lib ((length pre + length mid)%nat, s').
Proof.
  revert pre s. induction mid as [|c mid IH]; intros pre s Hnb Hreach Hrun.
  - simpl in Hrun. injection Hrun as <-. rewrite Nat.add_0_r. exact Hreach.
  - simpl in Hrun. rewrite bind_run in Hrun.
    destruct (c s).2 as [e|[]] eqn:Hc; [discriminate|].
    replace (length pre + length (c :: mid))%nat
      with (length (pre ++ [c]) + length mid)%nat
      by (rewrite length_app; simpl; lia).
    apply (IH (pre ++ [c]) (c s).1).
    + rewrite <- app_assoc. exact Hnb.
    + rewrite length_app. simpl. rewrite Nat.add_1_r.
      eapply rtc_r; [exact Hreach|].
      apply step_cell; [|exact Hc].
      rewrite Hnb. apply list_lookup_middle. reflexivity.
    + exact Hrun.
Qed.

(** The whole notebook runs to its end on the sample library. *)
Example sample_run_returns : (run_all sample.lib).2 = Return tt.
Proof. vm_compute. reflexivity. Qed.

(** C6: the notebook runs its cells one after the other. In every session
    met when it is run from the top, the names bound are exactly those bound
    by the cells strictly before the current one, the current cell raises no
    [NameError] (it reads no name before the cell that binds it has run), and
    the next session is determined: there is one way to go on. *)
Theorem names_bound_before_use lib i s c :
  reachable lib (i, s) ->
  notebook lib !! i = Some c ->
  dom (names s) = known i /\
  (forall x, (c s).2 <> Raise (NameError x)) /\
  (forall st1 st2, step lib (i, s) st1 -> step lib (i, s) st2 -> st1 = st2).
Proof.
  intros Hreach Hc.
  pose proof (reachable_names lib (i, s) Hreach) as Hdom. simpl in Hdom.
  split; [exact Hdom|]. split.
  - intros x Hx.
    pose proof (triple_notebook lib i c Hc s Hdom) as Ht.
    rewrite Hx in Ht. exact (Ht x eq_refl).
  - intros st1 st2. apply step_deterministic.
Qed.

Lemma names_bound_before_use_witness :
  dom (names (sample.after 14)) = known 14 /\
  (forall x, (cell_measure_schedule (sample.after 14)).2 <> Raise (NameError x)) /\
  (forall st1 st2,
     step sample.lib (14%nat, sample.after 14) st1 ->
     step sample.lib (14%nat, sample.after 14) st2 ->
     st1 = st2).
Proof.
  apply (names_bound_before_use sample.lib 14 (sample.after 14)
           cell_measure_schedule).
  - apply (run_cells_reachable sample.lib []
             (take 14 (notebook sample.lib)) (drop 14 (notebook sample.lib))
             new_session (sample.after 14)).
    + reflexivity.
    + apply rtc_refl.
    + vm_compute. reflexivity.
  - reflexivity.
Defined.

(** ** Exceptions of the library, cell by cell *)



(** ** Running the cells *)

Lemma getitem_nil {A} (i : Z) : getitem (@nil A) i = raise IndexError.
Proof.
  unfold getitem. cbv zeta.
  destruct (_ || _); [reflexivity|]. rewrite lookup_nil. reflexivity.
Qed.

Lemma getitem_first {A} (x : A) (l : list A) : getitem (x :: l) 0 = ret x.
Proof.
  unfold getitem.
  replace (Z.of_nat (length (x :: l)) <=? 0) with false; [reflexivity|].
  symmetry. apply Z.leb_gt. simpl length. lia.
Qed.

Lemma comprehension_map {A B} (f : A -> B) (xs : list A) :
  comprehension f xs = map f xs.
Proof.
  unfold comprehension.
  assert (H : forall acc, fold_left (fun acc q => acc ++ [f q]) xs acc = acc ++ map f xs).
  { induction xs as [|x xs IH]; intros acc; simpl.
    - rewrite app_nil_r. reflexivity.
    - rewrite IH, <- app_assoc. reflexivity. }
  apply (H []).
Qed.

Lemma range_from_seq (fuel : nat) (i stop : Z) :
  fuel = Z.to_nat (stop - i) ->
  range_from fuel i stop = map (fun k => i + Z.of_nat k) (seq 0 fuel).
Proof.
  revert i. induction fuel as [|fuel IH]; intros i Hfuel; [reflexivity|].
  simpl range_from. replace (i <? stop) with true by (symmetry; apply Z.ltb_lt; lia).
  rewrite IH by lia. simpl. rewrite Z.add_0_r. f_equal.
  rewrite <- seq_shift, map_map. apply map_ext. intros k. lia.
Qed.

Lemma range_zero_to (n : Z) : range n = zero_to n.
Proof.
  unfold range, zero_to. rewrite range_from_seq by (f_equal; lia).
  apply map_ext. intros k. lia.
Qed.

Lemma zero_to_spec (n q : Z) : In q (zero_to n) <-> 0 <= q < n.
Proof.
  unfold zero_to. rewrite in_map_iff. split.
  - intros (k & <- & Hk%in_seq). lia.
  - intros Hq. exists (Z.to_nat q). split; [lia|]. apply in_seq. lia.
Qed.

Lemma zero_to_lookup (n : Z) (k : nat) :
  (k < Z.to_nat n)%nat -> zero_to n !! k = Some (Z.of_nat k).
Proof.
  intros Hk. unfold zero_to. rewrite list_lookup_fmap.
  rewrite lookup_seq_lt by exact Hk. reflexivity.
Qed.

Lemma zero_to_length (n : Z) : length (zero_to n) = Z.to_nat n.
Proof. unfold zero_to. rewrite length_map, length_seq. reflexivity. Qed.

Ltac run_step :=
  first
    [ rewrite lookup_insert_eq
    | rewrite lookup_insert_ne by discriminate
    | rewrite getitem_first
    | rewrite getitem_nil
    | match goal with
      | H : ?t = _ |- context [match ?t with _ => _ end] => rewrite H
      | H : ?t = _ |- context [getitem ?t _] => rewrite H
      end ].

Ltac unfold_session :=
  unfold_cells;
  unfold magic, bind, load, assign, show, sdk, register, ret, raise, outcome.

Ltac run :=
  unfold logged, presented; unfold_session; cbn;
  repeat (run_step; unfold ret, raise; cbn);
  rewrite <- ?app_assoc; cbn;
  rewrite ?drop_app_length, ?drop_all.

Lemma describe_qubit_run qubit properties s x1 x2 x3 x4 x5 :
  qiskit.t1 properties qubit = inr x1 ->
  qiskit.t2 properties qubit = inr x2 ->
  qiskit.gate_error properties "u2" qubit = inr x3 ->
  qiskit.gate_length properties "u2" qubit = inr x4 ->
  qiskit.frequency properties qubit = inr x5 ->
  describe_qubit qubit properties s =
    ({| names := names s; magics := magics s;
        shown := shown s ++
          [Printed describe_template
             [VInt qubit; VFloat (x1 * 1e6); VFloat (x2 * 1e6); VFloat x3;
              VFloat (x4 * 1e9); VFloat (x5 * 1e-9)]];
        calls := calls s ++ map (fun c => (c, None)) (qubit_queries qubit) |},
     Return tt).
Proof. intros H1 H2 H3 H4 H5. run. reflexivity. Qed.

(** ** What [describe_qubit] asks and prints *)

(** C8: [describe_qubit] prints T1 and T2 multiplied by 1e6, the duration of
    the u2 gate multiplied by 1e9, the frequency multiplied by 1e-9, and the
    error of the u2 gate as it was returned. *)
Theorem describe_qubit_unit_conversions qubit properties s x1 x2 x3 x4 x5 :
  qiskit.t1 properties qubit = inr x1 ->
  qiskit.t2 properties qubit = inr x2 ->
  qiskit.gate_error properties "u2" qubit = inr x3 ->
  qiskit.gate_length properties "u2" qubit = inr x4 ->
  qiskit.frequency properties qubit = inr x5 ->
  (describe_qubit qubit properties s).2 = Return tt /\
  presented (describe_qubit qubit properties) s =
    [Printed describe_template
       [VInt qubit;
        VFloat (x1 * 1e6); VFloat (x2 * 1e6);
        VFloat x3;
        VFloat (x4 * 1e9);
        VFloat (x5 * 1e-9)]].
Proof.
  intros H1 H2 H3 H4 H5. unfold presented.
  rewrite (describe_qubit_run qubit properties s x1 x2 x3 x4 x5 H1 H2 H3 H4 H5).
  simpl. rewrite drop_app_length. split; reflexivity.
Qed.

Lemma describe_qubit_unit_conversions_witness :
  (describe_qubit 0 sample.props new_session).2 = Return tt /\
  presented (describe_qubit 0 sample.props) new_session =
    [Printed describe_template
       [VInt 0; VFloat 125; VFloat 62.5; VFloat 0.0009765625; VFloat 31.25;
        VFloat (4857000000 * 1e-9)]].
Proof.
  apply (describe_qubit_unit_conversions 0 sample.props new_session
           0.000125 0.0000625 0.0009765625 0.00000003125 4857000000);
    reflexivity.
Defined.

(** C4: on any qubit and properties object, [describe_qubit] asks for T1, T2,
    the error and the duration of the u2 gate and the frequency of that
    qubit, in this order and nothing else (a run that raises stops after some
    of them); it reads and binds no name; and when it returns, each of the
    five values is in the description it prints, after the unit conversion. *)
Theorem describe_qubit_queries qubit properties s :
  (exists k, map fst (logged (describe_qubit qubit properties) s)
             = take k (qubit_queries qubit)) /\
  names (describe_qubit qubit properties s).1 = names s /\
  ((describe_qubit qubit properties s).2 = Return tt ->
   map fst (logged (describe_qubit qubit properties) s) = qubit_queries qubit /\
   exists x1 x2 x3 x4 x5,
     qiskit.t1 properties qubit = inr x1 /\
     qiskit.t2 properties qubit = inr x2 /\
     qiskit.gate_error properties "u2" qubit = inr x3 /\
     qiskit.gate_length properties "u2" qubit = inr x4 /\
     qiskit.frequency properties qubit = inr x5 /\
     presented (describe_qubit qubit properties) s =
       [Printed describe_template
          [VInt qubit; VFloat (x1 * 1e6); VFloat (x2 * 1e6); VFloat x3;
           VFloat (x4 * 1e9); VFloat (x5 * 1e-9)]]).
Proof.
  destruct (qiskit.t1 properties qubit) as [e|x1] eqn:H1;
    [run; split; [exists 1%nat; reflexivity|split; [reflexivity|discriminate]]|].
  destruct (qiskit.t2 properties qubit) as [e|x2] eqn:H2;
    [run; split; [exists 2%nat; reflexivity|split; [reflexivity|discriminate]]|].
  destruct (qiskit.gate_error properties "u2" qubit) as [e|x3] eqn:H3;
    [run; split; [exists 3%nat; reflexivity|split; [reflexivity|discriminate]]|].
  destruct (qiskit.gate_length properties "u2" qubit) as [e|x4] eqn:H4;
    [run; split; [exists 4%nat; reflexivity|split; [reflexivity|discriminate]]|].
  destruct (qiskit.frequency properties qubit) as [e|x5] eqn:H5;
    [run; split; [exists 5%nat; reflexivity|split; [reflexivity|discriminate]]|].
  unfold logged, presented.
  rewrite (describe_qubit_run qubit properties s x1 x2 x3 x4 x5 H1 H2 H3 H4 H5).
  simpl. rewrite !drop_app_length.
  split; [exists 5%nat; reflexivity|]. split; [reflexivity|]. intros _.
  split; [reflexivity|]. exists x1, x2, x3, x4, x5. repeat split; reflexivity.
Qed.

Lemma describe_qubit_queries_witness :
  map fst (logged (describe_qubit 3 sample.props) new_session) = qubit_queries 3 /\
  exists x1 x2 x3 x4 x5,
    qiskit.t1 sample.props 3 = inr x1 /\
    qiskit.t2 sample.props 3 = inr x2 /\
    qiskit.gate_error sample.props "u2" 3 = inr x3 /\
    qiskit.gate_length sample.props "u2" 3 = inr x4 /\
    qiskit.frequency sample.props 3 = inr x5 /\
    presented (describe_qubit 3 sample.props) new_session =
      [Printed describe_template
         [VInt 3; VFloat (x1 * 1e6); VFloat (x2 * 1e6); VFloat x3;
          VFloat (x4 * 1e9); VFloat (x5 * 1e-9)]].
Proof.
  apply (describe_qubit_queries 3 sample.props new_session). reflexivity.
Defined.

(** ** The frequencies of qubit 0 *)

(** C9: the cell indexes both lists of estimated frequencies at position 0
    with no guard. With [defaults] bound to a defaults object, it returns
    exactly when each list has at least one entry, and it raises [IndexError]
    exactly when one of them is empty. *)
Theorem frequencies_defined_iff s d :
  names s !! "defaults" = Some (VDefaults d) ->
  ((cell_frequencies s).2 = Return tt <->
     (0 < length (qiskit.qubit_freq_est d))%nat /\
     (0 < length (qiskit.meas_freq_est d))%nat) /\
  ((cell_frequencies s).2 = Raise IndexError <->
     qiskit.qubit_freq_est d = [] \/ qiskit.meas_freq_est d = []).
Proof.
  intros Hd.
  destruct (qiskit.qubit_freq_est d) as [|x xs] eqn:Hq.
  { run. simpl. intuition (first [discriminate | lia | reflexivity]). }
  destruct (qiskit.meas_freq_est d) as [|y ys] eqn:Hm.
  { run. simpl. intuition (first [discriminate | lia | reflexivity]). }
  run. simpl. intuition (first [discriminate | lia | reflexivity]).
Qed.

Lemma frequencies_defined_iff_witness :
  ((cell_frequencies sample.session).2 = Return tt <->
     (0 < length (qiskit.qubit_freq_est sample.defaults))%nat /\
     (0 < length (qiskit.meas_freq_est sample.defaults))%nat) /\
  ((cell_frequencies sample.session).2 = Raise IndexError <->
     qiskit.qubit_freq_est sample.defaults = [] \/
     qiskit.meas_freq_est sample.defaults = []).
Proof.
  apply (frequencies_defined_iff sample.session sample.defaults).
  vm_compute. reflexivity.
Defined.

(** ** The measurement schedule of all the qubits *)

(** C10: the first call of the measurement cell is [get] for ['measure'] with
    the list [[0, 1, ..., n_qubits - 1]] of the configuration's qubit count,
    whatever the count is; the list holds exactly the indices from 0 up to
    the count, and it is empty when the count is not positive. *)
Theorem measure_lookup_over_all_qubits s m c :
  names s !! "inst_map" = Some (VInstMap m) ->
  names s !! "config" = Some (VConfiguration c) ->
  head (logged cell_measure_schedule s) =
    Some (call_get "measure" (qiskit.qubits (zero_to (qiskit.n_qubits c))) [],
          outcome (qiskit.get m "measure"
                     (qiskit.qubits (zero_to (qiskit.n_qubits c))) [])) /\
  length (zero_to (qiskit.n_qubits c)) = Z.to_nat (qiskit.n_qubits c) /\
  (forall q, In q (zero_to (qiskit.n_qubits c)) <-> 0 <= q < qiskit.n_qubits c).
Proof.
  intros Hm Hc. split; [|split; [apply zero_to_length|intros q; apply zero_to_spec]].
  run. rewrite comprehension_map, map_id, range_zero_to.
  destruct (qiskit.get m "measure" _ []) as [e|sched]; cbn.
  - rewrite drop_app_length. reflexivity.
  - repeat (run_step; cbn).
    destruct (qiskit.draw sched); cbn;
      rewrite <- ?app_assoc, drop_app_length; reflexivity.
Qed.

Lemma measure_lookup_over_all_qubits_witness :
  head (logged cell_measure_schedule sample.session) =
    Some (call_get "measure" (qiskit.qubits (zero_to 20)) [], None) /\
  length (zero_to 20) = 20%nat /\
  (forall q, In q (zero_to 20) <-> 0 <= q < 20).
Proof.
  apply (measure_lookup_over_all_qubits sample.session sample.inst_map sample.config);
    vm_compute; reflexivity.
Defined.

(** ** The calls of each cell *)

Lemma makes_silent {A} (m : Cell A) :
  (forall s, calls (m s).1 = calls s) -> makes m [].
Proof.
  intros H s. destruct (m s).2 eqn:E; [exact I|].
  rewrite H. simpl. rewrite app_nil_r. reflexivity.
Qed.

Lemma makes_ret {A} (a : A) : makes (ret a) [].
Proof. apply makes_silent. reflexivity. Qed.

Lemma makes_raise {A} e cs : makes (@raise A e) cs.
Proof. intros s. exact I. Qed.

Lemma makes_load x : makes (load x) [].
Proof. apply makes_silent. intros s. unfold load. destruct (names s !! x); reflexivity. Qed.

Lemma makes_assign x v : makes (assign x v) [].
Proof. apply makes_silent. reflexivity. Qed.

Lemma makes_show o : makes (show o) [].
Proof. apply makes_silent. reflexivity. Qed.

Lemma makes_register tools : makes (register tools) [].
Proof. apply makes_silent. reflexivity. Qed.

Lemma makes_getitem {A} (l : list A) i : makes (getitem l i) [].
Proof.
  apply makes_silent. intros s. unfold getitem.
  destruct (_ || _); [reflexivity|]. destruct (l !! _); reflexivity.
Qed.

Lemma makes_sdk {A} c (r : qiskit.Result A) : makes (sdk c r) [c].
Proof. intros s. destruct r; simpl; [exact I|reflexivity]. Qed.

Lemma makes_bind {A B} (m : Cell A) (k : A -> Cell B) c1 c2 :
  makes m c1 -> (forall a, makes (k a) c2) -> makes (bind m k) (c1 ++ c2).
Proof.
  intros Hm Hk s. rewrite bind_run. specialize (Hm s).
  destruct (m s).2 as [e|a]; [exact I|].
  specialize (Hk a (m s).1). destruct (k a (m s).1).2; [exact I|].
  rewrite Hk, Hm, map_app, app_assoc. reflexivity.
Qed.

Lemma makes_bind_ret {A B} (a : A) (k : A -> Cell B) cs :
  makes (k a) cs -> makes (bind (ret a) k) cs.
Proof. intros H s. exact (H s). Qed.

Lemma makes_magic name f : makes (magic name f) [call_magic name].
Proof.
  intros s. unfold magic. destruct (magics s) as [tools|]; [|exact I].
  unfold bind, sdk, display, show. destruct (f tools); simpl; [exact I|reflexivity].
Qed.

Lemma makes_post {A} (m : Cell A) cs cs' : makes m cs -> cs = cs' -> makes m cs'.
Proof. intros H <-. exact H. Qed.

Lemma makes_logged {A} (m : Cell A) cs s a :
  makes m cs -> (m s).2 = Return a -> logged m s = map (fun c => (c, None)) cs.
Proof.
  intros Hm Hr. specialize (Hm s). rewrite Hr in Hm.
  apply logged_app. exact Hm.
Qed.

Ltac scripts :=
  repeat lazymatch goal with
    | |- makes (bind (ret _) _) _ => apply makes_bind_ret
    | |- makes (bind _ _) _ => eapply makes_bind; [|intros]
    | |- makes (ret _) _ => apply makes_ret
    | |- makes (raise _) _ => apply makes_raise
    | |- makes (load _) _ => apply makes_load
    | |- makes (assign _ _) _ => apply makes_assign
    | |- makes (show _) _ => apply makes_show
    | |- makes (register _) _ => apply makes_register
    | |- makes (getitem _ _) _ => apply makes_getitem
    | |- makes (sdk _ _) _ => apply makes_sdk
    | |- makes (magic _ _) _ => apply makes_magic
    | |- makes (match ?v with _ => _ end) _ => destruct v
    end.

(** The measurement cell: its lookup is made with the qubits of the
    configuration bound in the session. *)
Lemma measure_schedule_logged s :
  (cell_measure_schedule s).2 = Return tt ->
  logged cell_measure_schedule s =
    map (fun c => (c, None))
      [call_get "measure" (qiskit.qubits (zero_to (session_n_qubits s))) [];
       call_draw].
Proof.
  unfold session_n_qubits.
  destruct (names s !! "inst_map") as [v|] eqn:Hm; [|run; discriminate].
  destruct v; try (run; discriminate).
  destruct (names s !! "config") as [v|] eqn:Hc; [|run; discriminate].
  destruct v; try (run; discriminate).
  run. rewrite comprehension_map, map_id, range_zero_to.
  destruct (qiskit.get m "measure" _ []) as [e|sched]; cbn; [discriminate|].
  repeat (run_step; cbn).
  destruct (qiskit.draw sched); cbn; [discriminate|].
  intros _. rewrite <- app_assoc, drop_app_length. reflexivity.
Qed.

Lemma notebook_logged lib i c s :
  notebook lib !! i = Some c ->
  (c s).2 = Return tt ->
  exists cs,
    script (session_n_qubits s) !! i = Some cs /\
    logged c s = map (fun call => (call, None)) cs.
Proof.
  unfold notebook. intros H Hr.
  do 14 (destruct i as [|i];
    [ injection H as <-; eexists; split; [reflexivity|];
      apply (makes_logged _ _ s tt); [|exact Hr];
      eapply makes_post; [unfold_cells; scripts|reflexivity]
    | cbn [lookup list_lookup] in H ]).
  destruct i as [|i];
    [ injection H as <-; eexists; split; [reflexivity|];
      apply measure_schedule_logged; exact Hr
    | cbn [lookup list_lookup] in H ].
  do 3 (destruct i as [|i];
    [ injection H as <-; eexists; split; [reflexivity|];
      apply (makes_logged _ _ s tt); [|exact Hr];
      eapply makes_post; [unfold_cells; scripts|reflexivity]
    | cbn [lookup list_lookup] in H ]).
  discriminate.
Qed.

(** ** What the cells present *)

Lemma configuration_presented s b c :
  names s !! "backend" = Some (VBackend b) ->
  qiskit.configuration b = inr c ->
  presented cell_configuration s =
    [Printed summary_template
       [VStr (qiskit.backend_name c);
        VStr (qiskit.backend_version c);
        VInt (qiskit.n_qubits c);
        VStr (if qiskit.n_qubits c =? 1 then EmptyString else "s");
        VStr (if qiskit.open_pulse c then "supports" else "does not support");
        VList (map VStr (qiskit.basis_gates c))]].
Proof. intros Hb Hc. run. reflexivity. Qed.

(** C2, as stated, fails: the summary is not the same text for all values.
    For the 20-qubit pulse backend it prints the suffix "s" and "supports",
    for a one-qubit backend without pulse access it prints no suffix and
    "does not support". *)
Lemma summary_branches_on_values :
  summary_words (sample.with_backend sample.backend)
    = Some (VStr "s", VStr "supports") /\
  summary_words (sample.with_backend sample.one_qubit_backend)
    = Some (VStr EmptyString, VStr "does not support") /\
  summary_words (sample.with_backend sample.backend)
    <> summary_words (sample.with_backend sample.one_qubit_backend).
Proof.
  assert (H1 : summary_words (sample.with_backend sample.backend)
               = Some (VStr "s", VStr "supports")) by (vm_compute; reflexivity).
  assert (H2 : summary_words (sample.with_backend sample.one_qubit_backend)
               = Some (VStr EmptyString, VStr "does not support")) by (vm_compute; reflexivity).
  split; [exact H1|]. split; [exact H2|].
  rewrite H1, H2. discriminate.
Qed.

(** C2, amended: every cell is a fixed sequence of calls into the library.
    When a cell returns, the calls it made are its row of [script], where the
    only part that depends on a value is the list of qubits of the
    measurement lookup. The output does depend on values in the configuration
    summary: its template is fixed, but the plural suffix is empty exactly
    when [n_qubits] is 1 and the phrase is "supports" exactly when
    [open_pulse] holds. *)
Theorem cells_are_straight_line :
  (forall lib i c s,
     notebook lib !! i = Some c ->
     (c s).2 = Return tt ->
     exists cs,
       script (session_n_qubits s) !! i = Some cs /\
       logged c s = map (fun call => (call, None)) cs) /\
  (forall s b c,
     names s !! "backend" = Some (VBackend b) ->
     qiskit.configuration b = inr c ->
     presented cell_configuration s =
       [Printed summary_template
          [VStr (qiskit.backend_name c);
           VStr (qiskit.backend_version c);
           VInt (qiskit.n_qubits c);
           VStr (if qiskit.n_qubits c =? 1 then EmptyString else "s");
           VStr (if qiskit.open_pulse c then "supports" else "does not support");
           VList (map VStr (qiskit.basis_gates c))]]).
Proof.
  split.
  - exact notebook_logged.
  - exact configuration_presented.
Qed.

Lemma cells_are_straight_line_witness :
  (exists cs,
     script (session_n_qubits sample.session) !! 14%nat = Some cs /\
     logged cell_measure_schedule sample.session
       = map (fun call => (call, None)) cs) /\
  presented cell_configuration (sample.with_backend sample.one_qubit_backend) =
    [Printed summary_template
       [VStr "fake_one_qubit"; VStr "1.0.0"; VInt 1; VStr EmptyString;
        VStr "does not support";
        VList [VStr "u1"; VStr "u2"; VStr "u3"; VStr "id"]]].
Proof.
  split.
  - apply (proj1 cells_are_straight_line sample.lib 14%nat
             cell_measure_schedule sample.session).
    + reflexivity.
    + vm_compute. reflexivity.
  - apply (proj2 cells_are_straight_line
             (sample.with_backend sample.one_qubit_backend)
             sample.one_qubit_backend sample.one_qubit_config).
    + vm_compute. reflexivity.
    + reflexivity.
Defined.

(** ** Raw and converted values *)

(** Equal float values are on the same side of 1. *)
Lemma float_below_one (x y : float) :
  VFloat x = VFloat y -> PrimFloat.ltb x 1 = PrimFloat.ltb y 1.
Proof.
  intros H.
  apply (f_equal (fun v => match v with VFloat z => PrimFloat.ltb z 1 | _ => false end)) in H.
  exact H.
Qed.

(** C1, as stated, fails: for qubit 0 of the sample properties the library
    returns a T1 of 0.000125 seconds, and [describe_qubit] presents 125. *)
Lemma describe_qubit_not_pass_through :
  qiskit.t1 sample.props 0 = inr 0.000125%float /\
  presented (describe_qubit 0 sample.props) new_session =
    [Printed describe_template
       [VInt 0; VFloat 125; VFloat 62.5; VFloat 0.0009765625; VFloat 31.25;
        VFloat (4857000000 * 1e-9)]] /\
  VFloat 125 <> VFloat 0.000125.
Proof.
  split; [reflexivity|]. split; [reflexivity|].
  intros H. apply float_below_one in H.
  vm_compute in H. discriminate.
Qed.

(** C1, amended: in a session where [config], [props], [defaults] and
    [inst_map] are bound, the values shown as the result of a cell (time
    steps, measurement levels and map, channels, [has], [get], the drawing of
    the measurement schedule, the version tables), and the printed text of
    the instruction map, name, version, qubit count, basis gates and u2 gate
    error, are the values the library returned. The others are converted:
    [describe_qubit] multiplies T1 and T2 by 1e6, the gate duration by 1e9
    and the frequency by 1e-9; the frequency cell multiplies both estimated
    frequencies by 1e-9; the summary adds a suffix and a phrase chosen from
    [n_qubits] and [open_pulse]. *)
Theorem presented_values s c p d m :
  names s !! "config" = Some (VConfiguration c) ->
  names s !! "props" = Some (VProperties p) ->
  names s !! "defaults" = Some (VDefaults d) ->
  names s !! "inst_map" = Some (VInstMap m) ->
  presented cell_dt s = [Out (VFloat (qiskit.dt c))] /\
  presented cell_meas_levels s = [Out (VList (map VInt (qiskit.meas_levels c)))] /\
  presented cell_dtm s = [Out (VFloat (qiskit.dtm c))] /\
  presented cell_meas_map s =
    [Out (VList (map (fun group => VList (map VInt group)) (qiskit.meas_map c)))] /\
  (forall ch, qiskit.drive c 0 = inr ch ->
     presented cell_drive s = [Out (VChannel ch)]) /\
  (forall ch, qiskit.measure c 0 = inr ch ->
     presented cell_measure s = [Out (VChannel ch)]) /\
  (forall ch, qiskit.acquire c 0 = inr ch ->
     presented cell_acquire s = [Out (VChannel ch)]) /\
  (forall b, qiskit.has m "x" (qiskit.qubit 3) = inr b ->
     presented cell_has s = [Out (VBool b)]) /\
  (forall sched,
     qiskit.get m "u1" (qiskit.qubit 0) [("P0", 3.1415%float)] = inr sched ->
     presented cell_get_u1 s = [Out (VSchedule sched)]) /\
  (forall sched fig,
     qiskit.get m "measure" (qiskit.qubits (zero_to (qiskit.n_qubits c))) []
       = inr sched ->
     qiskit.draw sched = inr fig ->
     presented cell_measure_schedule s = [Out (VFigure fig)]) /\
  (forall text,
     qiskit.str (qiskit.instruction_schedule_map d) = inr text ->
     presented cell_inst_map s = [Printed "{}" [VStr text]]) /\
  (forall lib tools table copyright,
     qiskit.tools_jupyter lib = inr tools ->
     qiskit.qiskit_version_table tools = inr table ->
     qiskit.qiskit_copyright tools = inr copyright ->
     presented (cell_version lib) s = [Out (VHtml table); Out (VHtml copyright)]) /\
  (forall b c',
     names s !! "backend" = Some (VBackend b) ->
     qiskit.configuration b = inr c' ->
     presented cell_configuration s =
       [Printed summary_template
          [VStr (qiskit.backend_name c');
           VStr (qiskit.backend_version c');
           VInt (qiskit.n_qubits c');
           VStr (if qiskit.n_qubits c' =? 1 then EmptyString else "s");
           VStr (if qiskit.open_pulse c' then "supports" else "does not support");
           VList (map VStr (qiskit.basis_gates c'))]]) /\
  (forall x1 x2 x3 x4 x5,
     qiskit.t1 p 0 = inr x1 ->
     qiskit.t2 p 0 = inr x2 ->
     qiskit.gate_error p "u2" 0 = inr x3 ->
     qiskit.gate_length p "u2" 0 = inr x4 ->
     qiskit.frequency p 0 = inr x5 ->
     presented cell_describe_qubit s =
       [Printed describe_template
          [VInt 0; VFloat (x1 * 1e6); VFloat (x2 * 1e6); VFloat x3;
           VFloat (x4 * 1e9); VFloat (x5 * 1e-9)]]) /\
  (forall x xs y ys,
     qiskit.qubit_freq_est d = x :: xs ->
     qiskit.meas_freq_est d = y :: ys ->
     presented cell_frequencies s =
       [Printed "DriveChannel(0) defaults to a modulation frequency of {} GHz."
          [VFloat (x * 1e-9)];
        Printed "MeasureChannel(0) defaults to a modulation frequency of {} GHz."
          [VFloat (y * 1e-9)]]).
Proof.
  intros Hc Hp Hd Hm.
  repeat match goal with |- _ /\ _ => split end.
  - run. reflexivity.
  - run. reflexivity.
  - run. reflexivity.
  - run. reflexivity.
  - intros ch H. run. reflexivity.
  - intros ch H. run. reflexivity.
  - intros ch H. run. reflexivity.
  - intros b H. run. reflexivity.
  - intros sched H. run. reflexivity.
  - intros sched fig H1 H2. run.
    rewrite comprehension_map, map_id, range_zero_to, H1. cbn.
    repeat (run_step; cbn). rewrite <- ?app_assoc, ?drop_app_length. reflexivity.
  - intros text H. run. reflexivity.
  - intros lib tools table copyright H1 H2 H3. run. reflexivity.
  - intros b c'. apply configuration_presented.
  - intros x1 x2 x3 x4 x5 H1 H2 H3 H4 H5. run. reflexivity.
  - intros x xs y ys H1 H2. run. reflexivity.
Qed.

Lemma presented_values_witness :
  presented cell_dt sample.session = [Out (VFloat (qiskit.dt sample.config))].
Proof.
  refine (proj1 (presented_values sample.session sample.config sample.props
                   sample.defaults sample.inst_map _ _ _ _));
    vm_compute; reflexivity.
Defined.

(** ** The text of the configuration summary *)

(** The summary has no float in it, so its text does not depend on how
    floats are written. *)
Example summary_text_pulse_backend repr_float :
  render repr_float <$> presented cell_configuration (sample.with_backend sample.backend)
  = [Some ("This backend is called fake_almaden, and is on version 1.4.6. "
           +:+ "It has 20 qubits. It supports OpenPulse programs. The basis "
           +:+ "gates supported on this device are ['u1', 'u2', 'u3', 'cx', 'id'].")].
Proof. vm_compute. reflexivity. Qed.

Example summary_text_one_qubit_backend repr_float :
  render repr_float <$> presented cell_configuration
                          (sample.with_backend sample.one_qubit_backend)
  = [Some ("This backend is called fake_one_qubit, and is on version 1.0.0. "
           +:+ "It has 1 qubit. It does not support OpenPulse programs. The basis "
           +:+ "gates supported on this device are ['u1', 'u2', 'u3', 'id'].")].
Proof. vm_compute. reflexivity. Qed.

(** ** Each cell changes only the names it binds *)

Lemma touches_same {A} (m : Cell A) X :
  (forall s, names (m s).1 = names s) -> touches X m.
Proof. intros H s x _. rewrite H. reflexivity. Qed.

Lemma touches_load x X : touches X (load x).
Proof. apply touches_same. intros s. unfold load. destruct (names s !! x); reflexivity. Qed.

Lemma touches_getitem {A} (l : list A) i X : touches X (getitem l i).
Proof.
  apply touches_same. intros s. unfold getitem.
  destruct (_ || _); [reflexivity|]. destruct (l !! _); reflexivity.
Qed.

Lemma touches_magic name f X : touches X (magic name f).
Proof.
  apply touches_same. intros s. unfold magic.
  destruct (magics s); [|reflexivity]. unfold bind, sdk, display, show.
  destruct (f j); reflexivity.
Qed.

Lemma touches_assign x v X : In x X -> touches X (assign x v).
Proof.
  intros Hx s y Hy. simpl. apply lookup_insert_ne. intros ->. exact (Hy Hx).
Qed.

Lemma touches_bind {A B} (m : Cell A) (k : A -> Cell B) X :
  touches X m -> (forall a, touches X (k a)) -> touches X (bind m k).
Proof.
  intros Hm Hk s x Hx. rewrite bind_run.
  destruct (m s).2 as [e|a]; [exact (Hm s x Hx)|].
  rewrite (Hk a (m s).1 x Hx). exact (Hm s x Hx).
Qed.

Ltac touching :=
  repeat lazymatch goal with
    | |- touches _ (bind _ _) => apply touches_bind; [|intros]
    | |- touches _ (ret _) => apply touches_same; reflexivity
    | |- touches _ (raise _) => apply touches_same; reflexivity
    | |- touches _ (show _) => apply touches_same; reflexivity
    | |- touches _ (register _) => apply touches_same; reflexivity
    | |- touches _ (sdk _ _) => apply touches_same; reflexivity
    | |- touches _ (load _) => apply touches_load
    | |- touches _ (getitem _ _) => apply touches_getitem
    | |- touches _ (magic _ _) => apply touches_magic
    | |- touches _ (assign _ _) => apply touches_assign; simpl; tauto
    | |- touches _ (match ?v with _ => _ end) => destruct v
    end.

(** X1: whatever the session, a cell changes the binding of none of the
    names of the notebook (the names of [binds]) outside its own row: a cell
    that fails or is run again cannot unbind or rebind a name that another
    cell binds. *)
Theorem cells_change_only_their_names lib i c row s x :
  notebook lib !! i = Some c ->
  binds !! i = Some row ->
  In x (concat binds) ->
  ~ In x row ->
  names (c s).1 !! x = names s !! x.
Proof.
  unfold notebook. intros Hc Hrow _. unfold binds in Hrow. revert s x.
  change (touches row c).
  do 18 (destruct i as [|i];
    [ injection Hc as <-; injection Hrow as <-; unfold_cells; touching
    | cbn [lookup list_lookup] in Hc, Hrow ]).
  discriminate.
Qed.

Lemma cells_change_only_their_names_witness :
  names (cell_frequencies sample.session).1 !! "config"
  = names sample.session !! "config".
Proof.
  apply (cells_change_only_their_names sample.lib 12 cell_frequencies
           ["q0_freq"; "q0_meas_freq"; "GHz"] sample.session "config").
  - reflexivity.
  - reflexivity.
  - simpl. do 2 right. left. reflexivity.
  - simpl. intros [H|[H|[H|[]]]]; discriminate.
Defined.

(** ** Running a cell before the cells it depends on *)

(** X2: a cell run in a session where the first name it needs is not bound
    (out of order, or after an earlier cell failed) raises [NameError] for
    that name, before any call into the library and before showing anything.
    The measurement cell needs [inst_map] before [config]: the method is
    looked up before the argument is evaluated. *)
Theorem out_of_order_raises_name_error lib i c x s :
  notebook lib !! i = Some c ->
  needs !! i = Some (Some x) ->
  names s !! x = None ->
  (c s).2 = Raise (NameError x) /\ logged c s = [] /\ presented c s = [].
Proof.
  unfold notebook, needs. intros Hc Hx Hs.
  do 18 (destruct i as [|i];
    [ injection Hc as <-; try discriminate Hx; injection Hx as <-;
      run; repeat split; reflexivity
    | cbn [lookup list_lookup] in Hc, Hx ]).
  discriminate.
Qed.

Lemma out_of_order_raises_name_error_witness :
  (cell_measure_schedule new_session).2 = Raise (NameError "inst_map") /\
  logged cell_measure_schedule new_session = [] /\
  presented cell_measure_schedule new_session = [].
Proof.
  apply (out_of_order_raises_name_error sample.lib 14 cell_measure_schedule
           "inst_map" new_session); reflexivity.
Defined.

(** ** What the frequency cell leaves behind *)

(** X3: with [defaults] bound, the frequency cell binds [q0_freq],
    [q0_meas_freq] and [GHz] (to 1e-9) when both lists have a first entry.
    When the list of measurement frequencies is empty it raises [IndexError]
    after [q0_freq] was bound: the session keeps [q0_freq] but neither of the
    other two names, and nothing is printed. When the list of qubit
    frequencies is empty the session is unchanged. *)
Theorem frequencies_bindings s d :
  names s !! "defaults" = Some (VDefaults d) ->
  (qiskit.qubit_freq_est d = [] ->
     cell_frequencies s = (s, Raise IndexError)) /\
  (forall x xs,
     qiskit.qubit_freq_est d = x :: xs ->
     qiskit.meas_freq_est d = [] ->
     cell_frequencies s =
       ({| names := <["q0_freq" := VFloat x]> (names s);
           magics := magics s; shown := shown s; calls := calls s |},
        Raise IndexError)) /\
  (forall x xs y ys,
     qiskit.qubit_freq_est d = x :: xs ->
     qiskit.meas_freq_est d = y :: ys ->
     (cell_frequencies s).2 = Return tt /\
     names (cell_frequencies s).1 =
       <["GHz" := VFloat 1e-9]>
         (<["q0_meas_freq" := VFloat y]> (<["q0_freq" := VFloat x]> (names s)))).
Proof.
  intros Hd. split; [|split].
  - intros Hq. run. destruct s; reflexivity.
  - intros x xs Hq Hm. run. reflexivity.
  - intros x xs y ys Hq Hm. run. split; reflexivity.
Qed.

Lemma frequencies_bindings_witness :
  (cell_frequencies (sample.after 12)).2 = Return tt /\
  names (cell_frequencies (sample.after 12)).1 =
    <["GHz" := VFloat 1e-9]>
      (<["q0_meas_freq" := VFloat 7000000000]>
         (<["q0_freq" := VFloat 4857000000]> (names (sample.after 12)))).
Proof.
  refine (proj2 (proj2 (frequencies_bindings (sample.after 12) sample.defaults _))
            4857000000%float [4971000000%float]
            7000000000%float [7100000000%float] _ _).
  - vm_compute. reflexivity.
  - reflexivity.
  - reflexivity.
Defined.

(** ** A cell that raises has shown nothing *)

Ltac brute_step :=
  first
    [ run_step
    | match goal with
      | |- context [getitem ?l 0] =>
          lazymatch l with
          | [] => fail
          | _ :: _ => fail
          | _ => destruct l eqn:?
          end
      end
    | match goal with
      | |- context [match ?t with _ => _ end] =>
          lazymatch t with
          | context [match _ with _ => _ end] => fail
          | _ => destruct t eqn:?
          end
      end ].

Ltac brute :=
  unfold logged, presented; unfold_session; cbn;
  repeat (brute_step; unfold ret, raise; cbn).

(** X4: every cell but the last prints or displays only after all its calls
    into the library and all its indexing succeeded: when such a cell raises,
    whatever the session, it has shown nothing. (The last cell can show the
    version table and then fail on the copyright magic.) *)
Theorem failing_cells_show_nothing lib i c s e :
  (i < 17)%nat ->
  notebook lib !! i = Some c ->
  (c s).2 = Raise e ->
  presented c s = [].
Proof.
  unfold notebook. intros Hi Hc.
  do 17 (destruct i as [|i];
    [ injection Hc as <-; clear Hi; brute;
      try discriminate; intros _; rewrite ?drop_all; reflexivity
    | cbn [lookup list_lookup] in Hc ]).
  lia.
Qed.

Lemma failing_cells_show_nothing_witness :
  presented cell_defaults (sample.with_backend sample.circuit_backend) = [].
Proof.
  apply (failing_cells_show_nothing sample.lib 11 cell_defaults
           (sample.with_backend sample.circuit_backend)
           (LibraryError "This backend has no pulse defaults.")).
  - lia.
  - reflexivity.
  - reflexivity.
Defined.

(** ** Sessions stay well-kinded *)

Lemma keeps_same {A} (m : Cell A) :
  (forall s, names (m s).1 = names s) -> keeps m.
Proof. intros H s Hs x v k. rewrite H. apply Hs. Qed.

Lemma keeps_load x : keeps (load x).
Proof. apply keeps_same. intros s. unfold load. destruct (names s !! x); reflexivity. Qed.

Lemma keeps_getitem {A} (l : list A) i : keeps (getitem l i).
Proof.
  apply keeps_same. intros s. unfold getitem.
  destruct (_ || _); [reflexivity|]. destruct (l !! _); reflexivity.
Qed.

Lemma keeps_magic name f : keeps (magic name f).
Proof.
  apply keeps_same. intros s. unfold magic.
  destruct (magics s); [|reflexivity]. unfold bind, sdk, display, show.
  destruct (f j); reflexivity.
Qed.

Lemma keeps_assign x v :
  (forall k, expected x = Some k -> kind_of v = k) -> keeps (assign x v).
Proof.
  intros Hv s Hs y w k. simpl.
  destruct (decide (x = y)) as [<-|Hne].
  - rewrite lookup_insert_eq. intros [= <-]. apply Hv.
  - rewrite lookup_insert_ne by exact Hne. apply Hs.
Qed.

Lemma keeps_bind {A B} (m : Cell A) (k : A -> Cell B) :
  keeps m -> (forall a, keeps (k a)) -> keeps (bind m k).
Proof.
  intros Hm Hk s Hs. rewrite bind_run.
  destruct (m s).2 as [e|a]; [exact (Hm s Hs)|]. apply Hk, Hm, Hs.
Qed.

Ltac keeping :=
  repeat lazymatch goal with
    | |- keeps (bind _ _) => apply keeps_bind; [|intros]
    | |- keeps (ret _) => apply keeps_same; reflexivity
    | |- keeps (raise _) => apply keeps_same; reflexivity
    | |- keeps (show _) => apply keeps_same; reflexivity
    | |- keeps (register _) => apply keeps_same; reflexivity
    | |- keeps (sdk _ _) => apply keeps_same; reflexivity
    | |- keeps (load _) => apply keeps_load
    | |- keeps (getitem _ _) => apply keeps_getitem
    | |- keeps (magic _ _) => apply keeps_magic
    | |- keeps (assign _ _) =>
        apply keeps_assign; intros ? [= <-]; reflexivity
    | |- keeps (match ?v with _ => _ end) => destruct v
    end.

Lemma keeps_notebook lib i c : notebook lib !! i = Some c -> keeps c.
Proof.
  unfold notebook. intros Hc.
  do 18 (destruct i as [|i];
    [ injection Hc as <-; unfold_cells; keeping
    | cbn [lookup list_lookup] in Hc ]).
  discriminate.
Qed.

Lemma well_kinded_new : well_kinded new_session.
Proof. intros x v k H. simpl in H. rewrite lookup_empty in H. discriminate. Qed.

Lemma reachable_well_kinded lib st : reachable lib st -> well_kinded st.2.
Proof.
  unfold reachable. revert st.
  apply (rtc_ind_r (fun st => well_kinded st.2)).
  - apply well_kinded_new.
  - intros st st' _ Hstep IH. destruct Hstep as [i c s Hc Hr]. simpl in *.
    exact (keeps_notebook lib i c Hc s IH).
Qed.

(** The names known at a cell are still known at the cells after it. *)
Lemma bind_all_grows D xs : D ⊆ bind_all D xs.
Proof.
  revert D. induction xs as [|x xs IH]; intros D; simpl; [reflexivity|].
  transitivity ({[x]} ∪ D); [apply union_subseteq_r|apply IH].
Qed.

Lemma foldl_bind_all_grows D rows : D ⊆ foldl bind_all D rows.
Proof.
  revert D. induction rows as [|row rows IH]; intros D; simpl; [reflexivity|].
  transitivity (bind_all D row); [apply bind_all_grows|apply IH].
Qed.

Lemma known_mono i j : (j <= i)%nat -> known j ⊆ known i.
Proof.
  intros Hji. unfold known.
  rewrite <- (take_drop j (take i binds)), take_take, Nat.min_l by exact Hji.
  rewrite foldl_app. apply foldl_bind_all_grows.
Qed.

(** A name known at cell [i] is bound, to an object of its class. *)
Lemma known_lookup s i x k :
  known i ⊆ dom (names s) -> well_kinded s ->
  x ∈ known i -> expected x = Some k ->
  exists v, names s !! x = Some v /\ kind_of v = k.
Proof.
  intros Hdom Hs Hx Hk. apply Hdom in Hx.
  apply elem_of_dom in Hx as [v Hv]. exists v. split; [exact Hv|].
  exact (Hs x v k Hv Hk).
Qed.

Ltac known_object Hdom Hs x k :=
  match goal with
  | |- _ =>
      let v := fresh "v" in
      let Hv := fresh "Hv" in
      let Hk := fresh "Hk" in
      destruct (known_lookup _ _ x k Hdom Hs) as (v & Hv & Hk);
        [ known_names; in_names; fail | reflexivity | ];
      destruct v; try discriminate Hk; clear Hk
  | |- _ => idtac
  end.

Ltac known_objects Hdom Hs :=
  known_object Hdom Hs "backend" KBackend;
  known_object Hdom Hs "config" KConfiguration;
  known_object Hdom Hs "props" KProperties;
  known_object Hdom Hs "defaults" KDefaults;
  known_object Hdom Hs "inst_map" KInstMap.

(** A cell run in a well-kinded session where the names of the cells before
    it are bound raises only what is allowed for it. *)
Lemma in_order_errors lib i c s e :
  notebook lib !! i = Some c ->
  known i ⊆ dom (names s) ->
  well_kinded s ->
  (c s).2 = Raise e ->
  allowed i e.
Proof.
  unfold notebook, allowed. intros Hc Hdom Hs.
  do 18 (destruct i as [|i];
    [ injection Hc as <-; known_objects Hdom Hs; clear Hdom Hs; brute;
      try discriminate; intros [= <-];
      first [ left; eexists; reflexivity | right; split; reflexivity ]
    | cbn [lookup list_lookup] in Hc ]).
  discriminate.
Qed.

(** ** What a run from the top can raise *)

Lemma run_cells_raises lib pre mid post s s' e :
  notebook lib = pre ++ mid ++ post ->
  reachable lib (length pre, s) ->
  run_cells mid s = (s', Raise e) ->
  exists i c si,
    reachable lib (i, si) /\ notebook lib !! i = Some c /\ (c si).2 = Raise e.
Proof.
  revert pre s. induction mid as [|c mid IH]; intros pre s Hnb Hreach Hrun.
  - discriminate.
  - assert (Hc : notebook lib !! length pre = Some c)
      by (rewrite Hnb; apply list_lookup_middle; reflexivity).
    simpl in Hrun. rewrite bind_run in Hrun.
    destruct (c s).2 as [e'|[]] eqn:Hres.
    + injection Hrun as _ <-. exists (length pre), c, s. auto.
    + apply (IH (pre ++ [c]) (c s).1).
      * rewrite <- app_assoc. exact Hnb.
      * rewrite length_app. simpl. rewrite Nat.add_1_r.
        eapply rtc_r; [exact Hreach|]. apply step_cell; assumption.
      * exact Hrun.
Qed.

(** X5: run from the top in a new session, the notebook keeps every name
    bound to an object of its class. In a session the run has reached, the
    current cell and every cell before it (run again) raise only what the
    library raised or, in the frequency cell, [IndexError]. So a run of the
    whole notebook never stops on a [NameError], a [TypeError] or an unknown
    line magic. *)
Theorem run_raises_only_library_or_index_errors lib :
  (forall i j s c,
     reachable lib (i, s) ->
     (j <= i)%nat ->
     notebook lib !! j = Some c ->
     well_kinded s /\ forall e, (c s).2 = Raise e -> allowed j e) /\
  (forall e,
     (run_all lib).2 = Raise e ->
     (exists x, e = LibraryError x) \/ e = IndexError).
Proof.
  assert (Hcell : forall i j s c,
     reachable lib (i, s) -> (j <= i)%nat -> notebook lib !! j = Some c ->
     well_kinded s /\ forall e, (c s).2 = Raise e -> allowed j e).
  { intros i j s c Hreach Hji Hc.
    pose proof (reachable_well_kinded lib (i, s) Hreach) as Hs.
    pose proof (reachable_names lib (i, s) Hreach) as Hdom. simpl in Hs, Hdom.
    split; [exact Hs|]. intros e.
    apply (in_order_errors lib j c s e Hc); [|exact Hs].
    rewrite Hdom. apply known_mono. exact Hji. }
  split; [exact Hcell|].
  intros e He. unfold run_all in He.
  destruct (run_cells (notebook lib) new_session) as [s' r] eqn:Hrun.
  simpl in He. subst r.
  destruct (run_cells_raises lib [] (notebook lib) [] new_session s' e)
    as (i & c & si & Hreach & Hc & Hres).
  - rewrite app_nil_r. reflexivity.
  - apply rtc_refl.
  - exact Hrun.
  - destruct (proj2 (Hcell i i si c Hreach (Nat.le_refl i) Hc) e Hres)
      as [Hl|[_ Hi]]; auto.
Qed.

Lemma run_raises_only_library_or_index_errors_witness :
  (run_all circuit_lib).2 = Raise (LibraryError "This backend has no pulse defaults.") /\
  ((exists x, LibraryError "This backend has no pulse defaults." = LibraryError x) \/
   LibraryError "This backend has no pulse defaults." = IndexError).
Proof.
  split; [vm_compute; reflexivity|].
  apply (proj2 (run_raises_only_library_or_index_errors circuit_lib)).
  vm_compute. reflexivity.
Defined.

(** ** The whole notebook, from the top *)

(** One cell of a run: the cell is run on the session reached so far. *)
Ltac next_cell :=
  lazymatch goal with
  | |- bind ?c _ ?S = _ =>
      let H := fresh "Hcell" in
      let s' := fresh "s'" in
      evar (s' : Session);
      assert (H : c S = (s', Return tt)) by (subst s'; run; reflexivity);
      rewrite bind_run, H; subst s'; cbn [fst snd]; clear H
  end.

(** X6: when every call into the library returns and both lists of estimated
    frequencies have a first entry, the notebook run from the top returns,
    binds the twelve names to the objects the library returned, registers
    the magics, makes the calls of [script] in order, and shows,
    in order: the summary of the configuration the backend returned, its
    time steps, levels, map and channels, the description of qubit 0 of the
    properties the backend returned, the two frequencies of the defaults the
    backend returned, the text and the schedules of the instruction map of
    these defaults, and the two tables. *)
Theorem notebook_end_to_end lib cls b c p d tools
    ch_d ch_m ch_a x1 x2 x3 x4 x5 f fs g gs text sched fig hx sched_u1
    table copyright :
  qiskit.test_mock_FakeAlmaden lib = inr cls ->
  qiskit.new cls = inr b ->
  qiskit.configuration b = inr c ->
  qiskit.drive c 0 = inr ch_d ->
  qiskit.measure c 0 = inr ch_m ->
  qiskit.acquire c 0 = inr ch_a ->
  qiskit.properties b = inr p ->
  qiskit.t1 p 0 = inr x1 ->
  qiskit.t2 p 0 = inr x2 ->
  qiskit.gate_error p "u2" 0 = inr x3 ->
  qiskit.gate_length p "u2" 0 = inr x4 ->
  qiskit.frequency p 0 = inr x5 ->
  qiskit.defaults b = inr d ->
  qiskit.qubit_freq_est d = f :: fs ->
  qiskit.meas_freq_est d = g :: gs ->
  qiskit.str (qiskit.instruction_schedule_map d) = inr text ->
  qiskit.get (qiskit.instruction_schedule_map d) "measure"
    (qiskit.qubits (zero_to (qiskit.n_qubits c))) [] = inr sched ->
  qiskit.draw sched = inr fig ->
  qiskit.has (qiskit.instruction_schedule_map d) "x" (qiskit.qubit 3) = inr hx ->
  qiskit.get (qiskit.instruction_schedule_map d) "u1" (qiskit.qubit 0)
    [("P0", 3.1415%float)] = inr sched_u1 ->
  qiskit.tools_jupyter lib = inr tools ->
  qiskit.qiskit_version_table tools = inr table ->
  qiskit.qiskit_copyright tools = inr copyright ->
  (run_all lib).2 = Return tt /\
  names (run_all lib).1 =
    <["qiskit" := VModule "qiskit"]>
      (<["measure_schedule" := VSchedule sched]>
         (<["inst_map" := VInstMap (qiskit.instruction_schedule_map d)]>
            (<["GHz" := VFloat 1e-9]>
               (<["q0_meas_freq" := VFloat g]>
                  (<["q0_freq" := VFloat f]>
                     (<["defaults" := VDefaults d]>
                        (<["describe_qubit" := VFunction fn_describe_qubit]>
                           (<["props" := VProperties p]>
                              (<["config" := VConfiguration c]>
                                 (<["backend" := VBackend b]>
                                    (<["FakeAlmaden" := VClass cls]> ∅))))))))))) /\
  magics (run_all lib).1 = Some tools /\
  calls (run_all lib).1
    = map (fun call => (call, None)) (concat (script (qiskit.n_qubits c))) /\
  shown (run_all lib).1 =
    [ Printed summary_template
        [VStr (qiskit.backend_name c); VStr (qiskit.backend_version c);
         VInt (qiskit.n_qubits c);
         VStr (if qiskit.n_qubits c =? 1 then EmptyString else "s");
         VStr (if qiskit.open_pulse c then "supports" else "does not support");
         VList (map VStr (qiskit.basis_gates c))];
      Out (VFloat (qiskit.dt c));
      Out (VList (map VInt (qiskit.meas_levels c)));
      Out (VFloat (qiskit.dtm c));
      Out (VList (map (fun group => VList (map VInt group)) (qiskit.meas_map c)));
      Out (VChannel ch_d);
      Out (VChannel ch_m);
      Out (VChannel ch_a);
      Printed describe_template
        [VInt 0; VFloat (x1 * 1e6); VFloat (x2 * 1e6); VFloat x3;
         VFloat (x4 * 1e9); VFloat (x5 * 1e-9)];
      Printed "DriveChannel(0) defaults to a modulation frequency of {} GHz."
        [VFloat (f * 1e-9)];
      Printed "MeasureChannel(0) defaults to a modulation frequency of {} GHz."
        [VFloat (g * 1e-9)];
      Printed "{}" [VStr text];
      Out (VFigure fig);
      Out (VBool hx);
      Out (VSchedule sched_u1);
      Out (VHtml table);
      Out (VHtml copyright) ].
Proof.
  intros H1 H2 H3 H4 H5 H6 H7 H8 H9 H10 H11 H12 H13 H14 H15 H16 H17 H18 H19
    H20 H21 H22 H23.
  assert (H17' : qiskit.get (qiskit.instruction_schedule_map d) "measure"
            (qiskit.qubits (comprehension (fun q => q) (range (qiskit.n_qubits c)))) []
          = inr sched)
    by (rewrite comprehension_map, map_id, range_zero_to; exact H17).
  evar (final : Session).
  assert (Hrun : run_all lib = (final, Return tt)).
  { subst final. unfold run_all, notebook. cbn [run_cells]. unfold new_session.
    repeat next_cell. reflexivity. }
  rewrite Hrun. subst final. cbn.
  rewrite comprehension_map, map_id, range_zero_to.
  repeat split; reflexivity.
Qed.

Lemma notebook_end_to_end_witness : (run_all sample.lib).2 = Return tt.
Proof.
  eapply proj1. eapply (notebook_end_to_end sample.lib); reflexivity.
Defined.

(** ** No call after a call that raised *)











(** ** The templates and their arguments *)

(** X7: the templates the notebook gives to [format] fit the arguments it
    passes: the summary and the description have the fields 0 to 5 and get
    six arguments, the two frequency lines have one field and get one
    argument, so formatting puts every argument in its place and cannot fail
    on a missing argument; with one argument less the summary cannot be
    formatted. *)
Theorem templates_fit_their_arguments a0 a1 a2 a3 a4 a5 :
  format summary_template [a0; a1; a2; a3; a4; a5] =
    Some ("This backend is called " +:+ a0 +:+ ", and is on version " +:+ a1
          +:+ ". It has " +:+ a2 +:+ " qubit" +:+ a3 +:+ ". It " +:+ a4
          +:+ " OpenPulse programs. The basis gates supported on this device are "
          +:+ a5 +:+ ".") /\
  format describe_template [a0; a1; a2; a3; a4; a5] =
    Some ("Qubit " +:+ a0 +:+ " has a " +:+ nl
          +:+ "  - T1 time of " +:+ a1 +:+ " microseconds" +:+ nl
          +:+ "  - T2 time of " +:+ a2 +:+ " microseconds" +:+ nl
          +:+ "  - U2 gate error of " +:+ a3 +:+ nl
          +:+ "  - U2 gate duration of " +:+ a4 +:+ " nanoseconds" +:+ nl
          +:+ "  - resonant frequency of " +:+ a5 +:+ " GHz") /\
  format "DriveChannel(0) defaults to a modulation frequency of {} GHz." [a0] =
    Some ("DriveChannel(0) defaults to a modulation frequency of " +:+ a0 +:+ " GHz.") /\
  format "MeasureChannel(0) defaults to a modulation frequency of {} GHz." [a0] =
    Some ("MeasureChannel(0) defaults to a modulation frequency of " +:+ a0 +:+ " GHz.") /\
  format summary_template [a0; a1; a2; a3; a4] = None.
Proof. repeat split; vm_compute; reflexivity. Qed.

(** ** The cells that depend on no other cell *)

(** X9: the first and the last cell read no name bound by another cell. In
    any session, whatever is bound, they raise only what the library raised;
    and when the first cell returns, [FakeAlmaden] and [backend] are bound to
    the class and the backend the library returned, whatever they were bound
    to before, and nothing else changed. *)
Theorem first_and_last_cell_are_self_contained lib s :
  (forall e, (cell_backend lib s).2 = Raise e -> exists x, e = LibraryError x) /\
  (forall e, (cell_version lib s).2 = Raise e -> exists x, e = LibraryError x) /\
  ((cell_backend lib s).2 = Return tt ->
   exists cls b,
     qiskit.test_mock_FakeAlmaden lib = inr cls /\
     qiskit.new cls = inr b /\
     names (cell_backend lib s).1 =
       <["backend" := VBackend b]> (<["FakeAlmaden" := VClass cls]> (names s)) /\
     magics (cell_backend lib s).1 = magics s /\
     shown (cell_backend lib s).1 = shown s).
Proof.
  split; [|split].
  - intros err. brute; try discriminate; intros [= <-]; eexists; reflexivity.
  - intros err. brute; try discriminate; intros [= <-]; eexists; reflexivity.
  - brute; try discriminate. intros _. eexists _, _.
    repeat split; first [reflexivity | eassumption].
Qed.

Lemma first_and_last_cell_are_self_contained_witness :
  exists cls b,
    qiskit.test_mock_FakeAlmaden sample.lib = inr cls /\
    qiskit.new cls = inr b /\
    names (cell_backend sample.lib sample.session).1 =
      <["backend" := VBackend b]>
        (<["FakeAlmaden" := VClass cls]> (names sample.session)) /\
    magics (cell_backend sample.lib sample.session).1 = magics sample.session /\
    shown (cell_backend sample.lib sample.session).1 = shown sample.session.
Proof.
  apply (proj2 (proj2 (first_and_last_cell_are_self_contained sample.lib sample.session))).
  vm_compute. reflexivity.
Defined.
